(** * A file-backed store of todo records: [models.py] and [persistence.py]

    The development embeds the Pydantic models of [models.py] and the
    data-access object [TodoDao] of [persistence.py] as executable Rocq
    functions and proves the properties of the store's contract.

    Conventions of the embedding.
    - A Python [str] is a [string]; one [ascii] stands for one code point
      in the range 0..255, so [String.length] is Python's [len].
    - A Python value that came out of [json.load], or that is handed to a
      model constructor, is a [value].  Number literals with a fraction or
      an exponent (Python floats) are outside the type.
    - A Python [dict] is an association list in insertion order.
    - A raised exception is the [Raise] case of [result]; methods of the
      store run in a state-and-exception monad [M] whose state holds the
      object's attributes, the backing file and the log.
    - [save], [update] and [delete] are the calls whose write to the
      file succeeds; [save_io], [update_io] and [delete_io] take the
      outcome of the write as an argument, and a write that fails raises
      [OSError] after the mapping has been changed. *)

From Stdlib Require Import ZArith List String Ascii Bool Lia.
From Stdlib Require Import DecimalString DecimalZ DecimalPos Sorted.
Import ListNotations.
Local Set Warnings "-register-all".
Local Open Scope string_scope.
Local Open Scope Z_scope.
Local Open Scope list_scope.

(** ** Python values and exceptions *)

Inductive value : Type :=
| VNone
| VBool (b : bool)
| VInt (z : Z)
| VStr (s : string)
| VList (l : list value)
| VDict (d : list (string * value)).

(** The exception classes the two modules can raise.  [ValidationError]
    is Pydantic's, [JSONDecodeError] is [json]'s; [ValueError] is what
    [update] and [delete] raise for an id that is not stored; [OSError]
    is what [open] and the writes to the file raise. *)
Inductive exn : Type :=
| TypeError
| ValueError
| KeyError
| ValidationError
| JSONDecodeError
| OSError.

Inductive result (A : Type) : Type :=
| Ok (a : A)
| Raise (e : exn).
Arguments Ok {A} a.
Arguments Raise {A} e.

Definition is_ok {A} (r : result A) : bool :=
  match r with Ok _ => true | Raise _ => false end.

(** ** Strings: [str.isspace], [str.strip] *)

Module PyStr.

(** [str.isspace] on the code points below 256: the ASCII controls
    TAB..CR and FS..US, the space, NEL (0x85) and NBSP (0xA0). *)
Definition isspace (c : ascii) : bool :=
  let n := nat_of_ascii c in
  ((9 <=? n) && (n <=? 13) || (28 <=? n) && (n <=? 32)
   || (n =? 133) || (n =? 160))%nat.

Fixpoint lstrip (s : string) : string :=
  match s with
  | String c s' => if isspace c then lstrip s' else s
  | EmptyString => EmptyString
  end.

Definition is_empty (s : string) : bool :=
  match s with EmptyString => true | _ => false end.

Fixpoint rstrip (s : string) : string :=
  match s with
  | String c s' =>
      let r := rstrip s' in
      if isspace c && is_empty r then EmptyString else String c r
  | EmptyString => EmptyString
  end.

(** [s.strip()] with no argument. *)
Definition strip (s : string) : string := rstrip (lstrip s).

(** [list(s)]: the characters of [s], each a string of length one. *)
Fixpoint chars (s : string) : list string :=
  match s with
  | String c s' => String c EmptyString :: chars s'
  | EmptyString => []
  end.

End PyStr.

(** ** [models.py] *)

Definition MIN_TEXT_LENGTH : nat := 2.

Record TodoCreate : Type := mkTodoCreate {
  tc_text : string;
  tc_done : bool
}.

Record Todo : Type := mkTodo {
  text : string;
  done : bool;
  id : Z
}.

(** [d.get(k)] on a dict held as an association list. *)
Fixpoint dict_get {A} (d : list (string * A)) (k : string) : option A :=
  match d with
  | [] => None
  | (k', v) :: d' => if String.eqb k k' then Some v else dict_get d' k
  end.

(** [TodoCreate.validate_text(cls, v)]. *)
Definition validate_text (v : value) : result string :=
  match v with
  | VStr s =>
      let v := PyStr.strip s in
      if (String.length v <? MIN_TEXT_LENGTH)%nat
      then Raise ValueError
      else Ok v
  | _ => Raise TypeError
  end.

(** The field [text: str] with its validator: the [str] check of the
    annotation comes first (Pydantic turns no other JSON value into a
    [str]), then [validate_text] runs on the string; a [ValueError] of
    the validator is reported as a [ValidationError]. *)
Definition text_field (v : value) : result string :=
  match v with
  | VStr _ =>
      match validate_text v with
      | Ok s => Ok s
      | Raise ValueError => Raise ValidationError
      | Raise e => Raise e
      end
  | _ => Raise ValidationError
  end.

(** [Todo(id=id, text=text, done=done)] on an [int], a [str] and a
    [bool]: the values have the annotated types, the validator runs on
    [text]. *)
Definition Todo_new (id : Z) (text : string) (done : bool) : result Todo :=
  match text_field (VStr text) with
  | Raise e => Raise e
  | Ok t => Ok (mkTodo t done id)
  end.

(** [t.model_dump()] of a [Todo]: the fields in declaration order, the
    inherited ones first. *)
Definition Todo_model_dump (t : Todo) : value :=
  VDict [("text", VStr (text t)); ("done", VBool (done t)); ("id", VInt (id t))].

(** ** Dicts keyed by hashable values *)

(** The hashable values of [value], up to Python's [==]: [True] and
    [False] are the integers 1 and 0. *)
Inductive key : Type :=
| KInt (z : Z)
| KStr (s : string)
| KNone.

Module PyDict.

Definition key_eqb (a b : key) : bool :=
  match a, b with
  | KInt x, KInt y => Z.eqb x y
  | KStr s, KStr t => String.eqb s t
  | KNone, KNone => true
  | _, _ => false
  end.

(** [hash(v)]: lists and dicts are unhashable. *)
Definition key_of (v : value) : result key :=
  match v with
  | VNone => Ok KNone
  | VBool b => Ok (KInt (if b then 1 else 0))
  | VInt z => Ok (KInt z)
  | VStr s => Ok (KStr s)
  | VList _ | VDict _ => Raise TypeError
  end.

Definition t (A : Type) : Type := list (key * A).

(** [d.get(k, None)]. *)
Fixpoint get {A} (d : t A) (k : key) : option A :=
  match d with
  | [] => None
  | (k', v) :: d' => if key_eqb k k' then Some v else get d' k
  end.

(** [k in d]. *)
Definition contains {A} (d : t A) (k : key) : bool :=
  match get d k with Some _ => true | None => false end.

(** [d[k] = v]: a stored key keeps its place, a new one goes last. *)
Fixpoint setitem {A} (d : t A) (k : key) (v : A) : t A :=
  match d with
  | [] => [(k, v)]
  | (k', v') :: d' =>
      if key_eqb k k' then (k', v) :: d' else (k', v') :: setitem d' k v
  end.

(** [del d[k]], for a [k] that is in [d]. *)
Definition delitem {A} (d : t A) (k : key) : t A :=
  filter (fun kv => negb (key_eqb k (fst kv))) d.

Definition keys {A} (d : t A) : list key := map fst d.
Definition values {A} (d : t A) : list A := map snd d.

(** [a > b]: integers by value, strings by code points, anything else
    is a [TypeError]. *)
Definition key_gt (a b : key) : result bool :=
  match a, b with
  | KInt x, KInt y => Ok (Z.ltb y x)
  | KStr s, KStr t => Ok (String.ltb t s)
  | _, _ => Raise TypeError
  end.

Fixpoint max_from (m : key) (l : list key) : result key :=
  match l with
  | [] => Ok m
  | x :: l' =>
      match key_gt x m with
      | Raise e => Raise e
      | Ok true => max_from x l'
      | Ok false => max_from m l'
      end
  end.

(** [max(l)]. *)
Definition max (l : list key) : result key :=
  match l with
  | [] => Raise ValueError
  | x :: l' => max_from x l'
  end.

(** [k + 1]. *)
Definition add1 (k : key) : result Z :=
  match k with
  | KInt z => Ok (z + 1)
  | _ => Raise TypeError
  end.

End PyDict.

(** ** The store and its monad *)

(** The backing file: missing, present with text that [json.load]
    rejects, or present with a JSON document.  [json.dump] writes the
    document that [json.load] reads back. *)
Inductive file : Type :=
| Absent
| Undecodable
| Document (doc : value).

(** The attributes of a [TodoDao], the file at [filename] and the
    warnings the module's logger has emitted. *)
Record state : Type := mkState {
  filename : string;
  todos : PyDict.t Todo;
  disk : file;
  warnings : list string
}.

Definition M (A : Type) : Type := state -> result A * state.

Definition ret {A} (a : A) : M A := fun st => (Ok a, st).

Definition raise {A} (e : exn) : M A := fun st => (Raise e, st).

Definition bind {A B} (c : M A) (k : A -> M B) : M B :=
  fun st =>
    match c st with
    | (Ok a, st') => k a st'
    | (Raise e, st') => (Raise e, st')
    end.

Definition lift {A} (r : result A) : M A := fun st => (r, st).

Definition gets {A} (f : state -> A) : M A := fun st => (Ok (f st), st).

Definition set_todos (d : PyDict.t Todo) : M unit :=
  fun st => (Ok tt, mkState (filename st) d (disk st) (warnings st)).

Definition set_disk (f : file) : M unit :=
  fun st => (Ok tt, mkState (filename st) (todos st) f (warnings st)).

Definition log_warning (msg : string) : M unit :=
  fun st =>
    (Ok tt, mkState (filename st) (todos st) (disk st) (warnings st ++ [msg])).

Declare Scope dao_scope.
Delimit Scope dao_scope with dao.
Notation "x <- c ;; k" := (bind c (fun x => k))
  (at level 61, c at next level, right associativity) : dao_scope.
Notation "c ;; k" := (bind c (fun _ => k))
  (at level 61, right associativity) : dao_scope.
Notation "'let*' x ':=' r 'in' k" :=
  (match r with Ok x => k | Raise e => Raise e end)
  (at level 10, x name, r at level 200, k at level 200).
Local Open Scope dao_scope.

(** ** [persistence.py]: class [TodoDao] *)

(** [iter(doc)]: a list gives its elements, a dict its keys, a string its
    characters; [None], a bool and an int are not iterable. *)
Definition py_iter (doc : value) : result (list value) :=
  match doc with
  | VList l => Ok l
  | VDict d => Ok (map (fun kv => VStr (fst kv)) d)
  | VStr s => Ok (map VStr (PyStr.chars s))
  | VNone | VBool _ | VInt _ => Raise TypeError
  end.

(** [todo_data[k]] for a string [k]: only a dict can be indexed by a
    string, and the key has to be there. *)
Definition py_getitem (todo_data : value) (k : string) : result value :=
  match todo_data with
  | VDict d =>
      match dict_get d k with
      | Some v => Ok v
      | None => Raise KeyError
      end
  | _ => Raise TypeError
  end.

Section Reading.

(** Pydantic validates in lax mode.  A value of the annotated type is
    taken as it is; what lax mode makes of any other value (a numeric
    string or a bool for an [int] field; 0, 1 or "yes" for a [bool]
    field) is left to these two functions, so that the results hold
    whatever the library coerces. *)
Variable lax_int : value -> option Z.
Variable lax_bool : value -> option bool.

Definition int_field (v : value) : option Z :=
  match v with
  | VInt z => Some z
  | _ => lax_int v
  end.

(** [done: bool = False]. *)
Definition done_field (v : option value) : option bool :=
  match v with
  | None => Some false
  | Some (VBool b) => Some b
  | Some v => lax_bool v
  end.

(** [TodoCreate(text=text, done=done)], and [TodoCreate(text=text)] when
    [done] is [None]: both arguments are values of any type, [text] goes
    through its validator and [done] through the field [done: bool]. *)
Definition TodoCreate_new (text : value) (done : option value)
  : result TodoCreate :=
  match text_field text with
  | Raise e => Raise e
  | Ok t =>
      match done_field done with
      | Some b => Ok (mkTodoCreate t b)
      | None => Raise ValidationError
      end
  end.

(** [Todo.model_validate(data)]: the inherited fields [text] and
    [done], then [id: int]; [text] and [id] are required. *)
Definition Todo_model_validate (data : value) : result Todo :=
  match data with
  | VDict d =>
      match dict_get d "text", done_field (dict_get d "done"),
            dict_get d "id" with
      | Some t, Some b, Some i =>
          let* t' := text_field t in
          match int_field i with
          | Some z => Ok (mkTodo t' b z)
          | None => Raise ValidationError
          end
      | _, _, _ => Raise ValidationError
      end
  | _ => Raise ValidationError
  end.

(** The body of the [for] loop of [_read_all], over the items still to
    come and the dict built so far. *)
Fixpoint read_items (items : list value) (todos : PyDict.t Todo)
  : result (PyDict.t Todo) :=
  match items with
  | [] => Ok todos
  | todo_data :: rest =>
      let* todo_id := py_getitem todo_data "id" in
      let* todo := Todo_model_validate todo_data in
      let* k := PyDict.key_of todo_id in
      read_items rest (PyDict.setitem todos k todo)
  end.

(** An item of the file that the loop accepts: it has an [id] that can
    be a key, and the model validates it. *)
Definition reads_as (v : value) (kt : key * Todo) : Prop :=
  exists r, py_getitem v "id" = Ok r /\
            PyDict.key_of r = Ok (fst kt) /\
            Todo_model_validate v = Ok (snd kt).

Definition _read_all : M (PyDict.t Todo) :=
  fname <- gets filename ;;
  f <- gets disk ;;
  match f with
  | Absent =>
      log_warning ("Todo data file '" ++ fname ++ "' not found. "
                   ++ "Returning an empty todo list.") ;;
      ret []
  | Undecodable => raise JSONDecodeError
  | Document doc =>
      items <- lift (py_iter doc) ;;
      lift (read_items items [])
  end.

(** [TodoDao(filename)] with the file system holding [f] at that path:
    the new object, or the exception of [_read_all]. *)
Definition TodoDao_init (filename : string) (f : file) : result state :=
  match _read_all (mkState filename [] f []) with
  | (Ok d, st) => Ok (mkState filename d (disk st) (warnings st))
  | (Raise e, _) => Raise e
  end.

End Reading.

(** [_write_all] when [open] and the writes succeed; [_write_all_io]
    below takes the other outcomes in. *)
Definition _write_all (todos : list Todo) : M unit :=
  let serializable := map Todo_model_dump todos in
  set_disk (Document (VList serializable)).

Definition _next_id : M Z :=
  d <- gets todos ;;
  match d with
  | [] => ret 1
  | _ :: _ =>
      m <- lift (PyDict.max (PyDict.keys d)) ;;
      lift (PyDict.add1 m)
  end.

Definition get (todo_id : Z) : M (option Todo) :=
  d <- gets todos ;;
  ret (PyDict.get d (KInt todo_id)).

Definition get_all : M (list Todo) :=
  d <- gets todos ;;
  ret (PyDict.values d).

Definition save (todo_create : TodoCreate) : M Todo :=
  todo_id <- _next_id ;;
  todo <- lift (Todo_new todo_id (tc_text todo_create) (tc_done todo_create)) ;;
  d <- gets todos ;;
  set_todos (PyDict.setitem d (KInt todo_id) todo) ;;
  d <- gets todos ;;
  _write_all (PyDict.values d) ;;
  ret todo.

Definition update (todo : Todo) : M Todo :=
  let todo_id := id todo in
  d <- gets todos ;;
  if negb (PyDict.contains d (KInt todo_id)) then raise ValueError
  else
    set_todos (PyDict.setitem d (KInt todo_id) todo) ;;
    d <- gets todos ;;
    _write_all (PyDict.values d) ;;
    ret todo.

Definition delete (todo_id : Z) : M unit :=
  d <- gets todos ;;
  if negb (PyDict.contains d (KInt todo_id)) then raise ValueError
  else
    set_todos (PyDict.delitem d (KInt todo_id)) ;;
    d <- gets todos ;;
    _write_all (PyDict.values d).

(** [_write_all], [save], [update] and [delete] above are the calls on a
    file system where the write succeeds.  How the write ends is not
    decided by the program: the file is written; [open] raises and the
    file stays as it was; or a write raises after [open] has truncated
    the file, and what is left is no JSON document. *)
Inductive write_outcome : Type :=
| Written
| OpenFails
| WriteFails.

Definition _write_all_io (io : write_outcome) (todos : list Todo) : M unit :=
  match io with
  | Written => _write_all todos
  | OpenFails => raise OSError
  | WriteFails => set_disk Undecodable ;; raise OSError
  end.

Definition save_io (io : write_outcome) (todo_create : TodoCreate) : M Todo :=
  todo_id <- _next_id ;;
  todo <- lift (Todo_new todo_id (tc_text todo_create) (tc_done todo_create)) ;;
  d <- gets todos ;;
  set_todos (PyDict.setitem d (KInt todo_id) todo) ;;
  d <- gets todos ;;
  _write_all_io io (PyDict.values d) ;;
  ret todo.

Definition update_io (io : write_outcome) (todo : Todo) : M Todo :=
  let todo_id := id todo in
  d <- gets todos ;;
  if negb (PyDict.contains d (KInt todo_id)) then raise ValueError
  else
    set_todos (PyDict.setitem d (KInt todo_id) todo) ;;
    d <- gets todos ;;
    _write_all_io io (PyDict.values d) ;;
    ret todo.

Definition delete_io (io : write_outcome) (todo_id : Z) : M unit :=
  d <- gets todos ;;
  if negb (PyDict.contains d (KInt todo_id)) then raise ValueError
  else
    set_todos (PyDict.delitem d (KInt todo_id)) ;;
    d <- gets todos ;;
    _write_all_io io (PyDict.values d).

(** The tests call [dao.save(TodoCreate(text=...))]: the creation input
    is validated by the model's constructor and then saved. *)
Definition save_new (lax_bool : value -> option bool)
  (text : value) (done : option value) : M Todo :=
  todo_create <- lift (TodoCreate_new lax_bool text done) ;;
  save todo_create.

(** A caller that issues [save] and [delete] calls one after the other
    and goes on after a call that raised; [run_ops] returns the ids that
    the [save] calls assigned, in call order, and the final state. *)
Inductive op : Type :=
| OpSave (todo_create : TodoCreate)
| OpDelete (todo_id : Z).

Fixpoint run_ops (ops : list op) (st : state) : list Z * state :=
  match ops with
  | [] => ([], st)
  | OpSave c :: ops' =>
      match save c st with
      | (Ok t, st') => let (ids, st'') := run_ops ops' st' in (id t :: ids, st'')
      | (Raise _, st') => run_ops ops' st'
      end
  | OpDelete i :: ops' => run_ops ops' (snd (delete i st))
  end.

(** [save] called on each creation input in turn, stopping at the first
    exception. *)
Fixpoint save_each (inputs : list TodoCreate) : M (list Todo) :=
  match inputs with
  | [] => ret []
  | c :: inputs' =>
      t <- save c ;;
      ts <- save_each inputs' ;;
      ret (t :: ts)
  end.

(** One of the three mutating calls. *)
Inductive mutation : Type :=
| Save (todo_create : TodoCreate)
| Update (todo : Todo)
| Delete (todo_id : Z).

Definition mutate (m : mutation) : M unit :=
  match m with
  | Save c => save c ;; ret tt
  | Update t => update t ;; ret tt
  | Delete i => delete i
  end.

(** The integers [1, 2, ..., n]. *)
Definition one_to (n : nat) : list Z := map Z.of_nat (seq 1 n).

(** A text that the validator returns as it is. *)
Definition valid_text (s : string) : bool :=
  String.eqb (PyStr.strip s) s && (MIN_TEXT_LENGTH <=? String.length s)%nat.

(** A caller that issues any of the three mutating calls one after the
    other and goes on after a call that raised. *)
Fixpoint run_mutations (ms : list mutation) (st : state) : state :=
  match ms with
  | [] => st
  | m :: ms' => run_mutations ms' (snd (mutate m st))
  end.

(** A mutating call together with the outcome of its write. *)
Definition mutate_io (io : write_outcome) (m : mutation) : M unit :=
  match m with
  | Save c => save_io io c ;; ret tt
  | Update t => update_io io t ;; ret tt
  | Delete i => delete_io io i
  end.

Fixpoint run_io (calls : list (mutation * write_outcome)) (st : state) : state :=
  match calls with
  | [] => st
  | (m, io) :: calls' => run_io calls' (snd (mutate_io io m st))
  end.

(** ** [main.py]: the request handlers *)

(** [str(z)] for an [int]: decimal digits, a minus sign for a negative
    number. *)
Definition py_str (z : Z) : string := NilZero.string_of_int (Z.to_int z).

(** How a handler ends: it returns, it raises [HTTPException], or an
    exception of the store or of a model passes through it. *)
Inductive outcome (A : Type) : Type :=
| Returned (a : A)
| HTTPException (status_code : Z) (detail : string)
| Unhandled (e : exn).
Arguments Returned {A} a.
Arguments HTTPException {A} status_code detail.
Arguments Unhandled {A} e.

(** Handlers work on the module's [dao]; the state is the state of that
    object. *)
Definition Handler (A : Type) : Type := state -> outcome A * state.

Definition hret {A} (a : A) : Handler A := fun st => (Returned a, st).

Definition http_exception {A} (status_code : Z) (detail : string) : Handler A :=
  fun st => (HTTPException status_code detail, st).

(** A call of a method of [dao]. *)
Definition call {A} (c : M A) : Handler A :=
  fun st =>
    match c st with
    | (Ok a, st') => (Returned a, st')
    | (Raise e, st') => (Unhandled e, st')
    end.

Definition hbind {A B} (c : Handler A) (k : A -> Handler B) : Handler B :=
  fun st =>
    match c st with
    | (Returned a, st') => k a st'
    | (HTTPException sc d, st') => (HTTPException sc d, st')
    | (Unhandled e, st') => (Unhandled e, st')
    end.

(** The [Response] parameter of a handler, as the header assignments
    [response.headers[name] = value] made on it, in order. *)
Definition Response : Type := list (string * string).

Definition set_header (response : Response) (name value : string) : Response :=
  response ++ [(name, value)].

Definition get_todos : Handler (list Todo) :=
  call get_all.

Definition create_todo_io (io : write_outcome) (todo : TodoCreate)
  (response : Response) : Handler (Todo * Response) :=
  hbind (call (save_io io todo)) (fun created =>
  let location := ("/todos/" ++ py_str (id created))%string in
  hret (created, set_header response "Location" location)).

Definition get_todo (todo_id : Z) : Handler Todo :=
  hbind (call (get todo_id)) (fun todo =>
  match todo with
  | None => http_exception 404 "Todo not found"
  | Some todo => hret todo
  end).

Definition update_todo (todo_id : Z) (todo : TodoCreate) : Handler Todo :=
  hbind (call (get todo_id)) (fun existing =>
  match existing with
  | None => http_exception 404 "Todo not found"
  | Some _ =>
      hbind (call (lift (Todo_new todo_id (tc_text todo) (tc_done todo))))
            (fun updated => call (update updated))
  end).

Definition update_todo_io (io : write_outcome) (todo_id : Z)
  (todo : TodoCreate) : Handler Todo :=
  hbind (call (get todo_id)) (fun existing =>
  match existing with
  | None => http_exception 404 "Todo not found"
  | Some _ =>
      hbind (call (lift (Todo_new todo_id (tc_text todo) (tc_done todo))))
            (fun updated => call (update_io io updated))
  end).

Definition delete_todo (todo_id : Z) : Handler unit :=
  http_exception 500 "Not implemented yet".

Definition todos_options (response : Response) : Handler (unit * Response) :=
  hret (tt, set_header response "Allow" "GET,POST,OPTIONS").

Definition todo_options (todo_id : Z) (response : Response)
  : Handler (unit * Response) :=
  hret (tt, set_header response "Allow" "GET,PUT,DELETE,OPTIONS").

(** The routes of [app]: method and path of each decorator, with the
    parameters the handler receives. *)
Inductive request : Type :=
| GET_todos
| POST_todos (todo : TodoCreate)
| GET_todo (todo_id : Z)
| PUT_todo (todo_id : Z) (todo : TodoCreate)
| DELETE_todo (todo_id : Z)
| OPTIONS_todos
| OPTIONS_todo (todo_id : Z).

(** What a handler returned, with the headers it set. *)
Inductive reply : Type :=
| ReplyTodos (l : list Todo)
| ReplyTodo (t : Todo) (response : Response)
| ReplyNone (response : Response).

(** The handler of a request, run with a [Response] on which no header
    has been set; [io] is the outcome of the write, should the handler
    reach one. *)
Definition handle (io : write_outcome) (r : request) : Handler reply :=
  match r with
  | GET_todos => hbind get_todos (fun l => hret (ReplyTodos l))
  | POST_todos todo =>
      hbind (create_todo_io io todo [])
            (fun cr => hret (ReplyTodo (fst cr) (snd cr)))
  | GET_todo i => hbind (get_todo i) (fun t => hret (ReplyTodo t []))
  | PUT_todo i todo =>
      hbind (update_todo_io io i todo) (fun t => hret (ReplyTodo t []))
  | DELETE_todo i => hbind (delete_todo i) (fun _ => hret (ReplyNone []))
  | OPTIONS_todos => hbind (todos_options []) (fun ur => hret (ReplyNone (snd ur)))
  | OPTIONS_todo i => hbind (todo_options i []) (fun ur => hret (ReplyNone (snd ur)))
  end.

(** Requests served one after the other; each is paired with how its
    handler ended. *)
Fixpoint serve (rs : list (request * write_outcome)) (st : state)
  : list (request * outcome reply) * state :=
  match rs with
  | [] => ([], st)
  | (r, io) :: rs' =>
      let (o, st') := handle io r st in
      let (os, st'') := serve rs' st' in
      ((r, o) :: os, st'')
  end.

(** The ids of the records that the [POST] requests created. *)
Fixpoint created_ids (log : list (request * outcome reply)) : list Z :=
  match log with
  | [] => []
  | (POST_todos _, Returned (ReplyTodo t _)) :: log' => id t :: created_ids log'
  | _ :: log' => created_ids log'
  end.

(** ** Sample inputs *)

Definition sample_empty : state := mkState "todo_data.json" [] Absent [].

Definition sample_first : TodoCreate := mkTodoCreate "First" false.

Definition sample_second : TodoCreate := mkTodoCreate "Second" false.

(** The store after [save] of "First" and of "Second". *)
Definition sample_two : state :=
  Eval vm_compute in snd (save_each [sample_first; sample_second] sample_empty).

(** Pydantic in strict mode: no value of another type is coerced. *)
Definition strict_int (v : value) : option Z := None.

Definition strict_bool (v : value) : option bool := None.

(** [{"id": i, "text": s}]. *)
Definition sample_record (i : Z) (s : string) : value :=
  VDict [("id", VInt i); ("text", VStr s)].

(** A store read from a file whose only record has the string "7" as
    its id, under a model that coerces numeric strings: the key is the
    string, the record's id the integer. *)
Definition sample_foreign : state :=
  mkState "todo_data.json" [(KStr "7", mkTodo "seven" false 7)]
    (Document (VList [VDict [("id", VStr "7"); ("text", VStr "seven")]])) [].

(** A session of requests on the routes of [app]; one [POST] has a text
    that is too short, and the write of another fails at [open]. *)
Definition sample_session : list (request * write_outcome) :=
  [(POST_todos sample_first, Written); (DELETE_todo 1, Written);
   (POST_todos sample_second, Written);
   (PUT_todo 1 (mkTodoCreate " Done " true), Written); (GET_todo 2, Written);
   (PUT_todo 9 sample_first, Written);
   (POST_todos (mkTodoCreate "x" false), Written);
   (POST_todos sample_first, OpenFails); (OPTIONS_todos, Written);
   (POST_todos sample_second, Written); (GET_todos, Written)].

(** ** Notions used in the statements *)

(** What the backing file holds after [_write_all] has been given the
    values of [d]. *)
Definition written (d : PyDict.t Todo) : file :=
  Document (VList (map Todo_model_dump (PyDict.values d))).

(** The state after a mutating call has replaced the dict by [d] and
    rewritten the file. *)
Definition committed (st : state) (d : PyDict.t Todo) : state :=
  mkState (filename st) d (written d) (warnings st).

Definition all_ints (d : PyDict.t Todo) : Prop :=
  exists zs, PyDict.keys d = map KInt zs.

(** [d[k] = v] for each entry of [es] in turn. *)
Definition set_each (es d : PyDict.t Todo) : PyDict.t Todo :=
  fold_left (fun d kv => PyDict.setitem d (fst kv) (snd kv)) es d.

(** A JSON object without [id], without [text], with a [text] that is
    not a string, or with a [text] shorter than [MIN_TEXT_LENGTH] once
    stripped. *)
Definition unacceptable (v : value) : bool :=
  match v with
  | VDict d =>
      match dict_get d "id", dict_get d "text" with
      | Some _, Some (VStr s) =>
          (String.length (PyStr.strip s) <? MIN_TEXT_LENGTH)%nat
      | _, _ => true
      end
  | _ => false
  end.

(** The state after a mutating call has replaced the dict by [d] and
    the write has ended as [io]. *)
Definition stored (io : write_outcome) (st : state) (d : PyDict.t Todo) : state :=
  match io with
  | Written => committed st d
  | OpenFails => mkState (filename st) d (disk st) (warnings st)
  | WriteFails => mkState (filename st) d Undecodable (warnings st)
  end.

(** The file holds what the mapping holds: nothing has been saved and
    there is no file, or the file is the last complete rewrite. *)
Definition in_sync (st : state) : Prop :=
  (todos st = [] /\ disk st = Absent) \/ disk st = written (todos st).

(** Every record is stored under its own id. *)
Definition own_ids (d : PyDict.t Todo) : Prop :=
  Forall (fun kt => fst kt = KInt (id (snd kt))) d.

(** Every record has a text that the validator leaves as it is. *)
Definition valid_texts (d : PyDict.t Todo) : Prop :=
  Forall (fun kt => valid_text (text (snd kt)) = true) d.

(** A string of whitespace only. *)
Fixpoint all_space (s : string) : bool :=
  match s with
  | EmptyString => true
  | String c s' => PyStr.isspace c && all_space s'
  end.

(** The last character of a string, if any. *)
Fixpoint last_char (s : string) : option ascii :=
  match s with
  | EmptyString => None
  | String c EmptyString => Some c
  | String _ s' => last_char s'
  end.

Definition first_char (s : string) : option ascii :=
  match s with
  | EmptyString => None
  | String c _ => Some c
  end.

(** ** Strings *)

Module PyStrFacts.
Import PyStr.

Lemma lstrip_fixed_cases (s : string) :
  lstrip s = s <->
  s = EmptyString \/ exists c s', s = String c s' /\ isspace c = false.
Proof.
  split.
  - destruct s as [|c s']; [now left|].
    intro H. right. exists c, s'. split; [reflexivity|].
    simpl in H. destruct (isspace c) eqn:E; [|reflexivity].
    exfalso.
    assert (L : forall u, (String.length (lstrip u) <= String.length u)%nat).
    { induction u as [|a u IH]; simpl; [lia|].
      destruct (isspace a); simpl; lia. }
    specialize (L s'). rewrite H in L. simpl in L. lia.
  - intros [->|(c & s' & -> & E)]; simpl; [reflexivity|now rewrite E].
Qed.

Lemma lstrip_idem (s : string) : lstrip (lstrip s) = lstrip s.
Proof.
  induction s as [|c s IH]; simpl; [reflexivity|].
  destruct (isspace c) eqn:E; [exact IH|]. simpl. now rewrite E.
Qed.

Lemma rstrip_idem (s : string) : rstrip (rstrip s) = rstrip s.
Proof.
  induction s as [|c s IH]; simpl; [reflexivity|].
  destruct (isspace c && is_empty (rstrip s)) eqn:E; [reflexivity|].
  simpl. rewrite IH, E. reflexivity.
Qed.

Lemma lstrip_rstrip_fixed (s : string) :
  lstrip s = s -> lstrip (rstrip s) = rstrip s.
Proof.
  intro H. apply lstrip_fixed_cases in H.
  destruct H as [->|(c & s' & -> & E)]; [reflexivity|].
  simpl. rewrite E. simpl. now rewrite E.
Qed.

Lemma strip_idem (s : string) : strip (strip s) = strip s.
Proof.
  unfold strip.
  rewrite (lstrip_rstrip_fixed (lstrip s) (lstrip_idem s)).
  apply rstrip_idem.
Qed.

End PyStrFacts.

Lemma validate_text_str (s : string) :
  validate_text (VStr s) =
  if (String.length (PyStr.strip s) <? MIN_TEXT_LENGTH)%nat
  then Raise ValueError else Ok (PyStr.strip s).
Proof. reflexivity. Qed.

Lemma text_field_str (s : string) :
  text_field (VStr s) =
  if (String.length (PyStr.strip s) <? MIN_TEXT_LENGTH)%nat
  then Raise ValidationError else Ok (PyStr.strip s).
Proof.
  unfold text_field. rewrite validate_text_str.
  now destruct (String.length (PyStr.strip s) <? MIN_TEXT_LENGTH)%nat.
Qed.

Lemma text_field_valid (s : string) :
  valid_text s = true -> text_field (VStr s) = Ok s.
Proof.
  unfold valid_text. intro H. apply andb_true_iff in H as [H1 H2].
  apply String.eqb_eq in H1. rewrite text_field_str, H1.
  apply Nat.leb_le in H2.
  destruct (Nat.ltb_spec (String.length s) MIN_TEXT_LENGTH); [lia|reflexivity].
Qed.

Lemma text_field_ok_valid (v : value) (s : string) :
  text_field v = Ok s -> valid_text s = true.
Proof.
  destruct v as [| | |u| |]; try discriminate.
  rewrite text_field_str.
  destruct (Nat.ltb_spec (String.length (PyStr.strip u)) MIN_TEXT_LENGTH);
    [discriminate|].
  intro E. injection E as <-. unfold valid_text.
  rewrite PyStrFacts.strip_idem, String.eqb_refl.
  apply andb_true_iff. split; [reflexivity|now apply Nat.leb_le].
Qed.

(** ** Dicts *)

Module PyDictFacts.
Import PyDict.

Lemma key_eqb_eq (a b : key) : key_eqb a b = true <-> a = b.
Proof.
  destruct a, b; simpl; split; intro H;
    try discriminate; try reflexivity.
  - apply Z.eqb_eq in H. now subst.
  - injection H as ->. apply Z.eqb_refl.
  - apply String.eqb_eq in H. now subst.
  - injection H as ->. apply String.eqb_refl.
Qed.

Lemma key_eqb_refl (a : key) : key_eqb a a = true.
Proof. now apply key_eqb_eq. Qed.

Lemma key_eqb_neq (a b : key) : key_eqb a b = false <-> a <> b.
Proof.
  rewrite <- key_eqb_eq. destruct (key_eqb a b); split; congruence.
Qed.

Lemma key_eqb_sym (a b : key) : key_eqb a b = key_eqb b a.
Proof.
  destruct (key_eqb b a) eqn:E.
  - apply key_eqb_eq in E. subst. apply key_eqb_refl.
  - apply key_eqb_neq. apply key_eqb_neq in E. congruence.
Qed.

Section Entries.
Context {A : Type}.
Implicit Types (d : t A) (k : key) (v : A).

Lemma get_None_iff d k : get d k = None <-> ~ In k (keys d).
Proof.
  induction d as [|[k' v'] d IH]; simpl; [tauto|].
  destruct (key_eqb k k') eqn:E.
  - apply key_eqb_eq in E. subst. split; [discriminate|tauto].
  - apply key_eqb_neq in E. rewrite IH. split; intuition congruence.
Qed.

Lemma get_In d k v : get d k = Some v -> In (k, v) d.
Proof.
  induction d as [|[k' v'] d IH]; simpl; [discriminate|].
  destruct (key_eqb k k') eqn:E.
  - apply key_eqb_eq in E. subst. intro H. injection H as ->. now left.
  - intro H. right. now apply IH.
Qed.

Lemma NoDup_keys_functional d k v v' :
  NoDup (keys d) -> In (k, v) d -> In (k, v') d -> v = v'.
Proof.
  unfold keys. induction d as [|[k0 v0] d IH]; simpl; [tauto|].
  intro N. inversion N as [|? ? Hn Hd]; subst.
  assert (X : forall w, In (k0, w) d -> False).
  { intros w Hw. apply Hn. apply in_map_iff. now exists (k0, w). }
  intros [E|H1] [E'|H2].
  - congruence.
  - injection E as -> ->. now apply X in H2.
  - injection E' as -> ->. now apply X in H1.
  - now apply IH.
Qed.

Lemma get_setitem d k v k' :
  get (setitem d k v) k' = if key_eqb k' k then Some v else get d k'.
Proof.
  induction d as [|[k0 v0] d IH]; simpl; [reflexivity|].
  destruct (key_eqb k k0) eqn:E; simpl.
  - apply key_eqb_eq in E. subst k0.
    now destruct (key_eqb k' k).
  - rewrite IH. destruct (key_eqb k' k0) eqn:E0; [|reflexivity].
    apply key_eqb_eq in E0. subst k0.
    now rewrite key_eqb_sym, E.
Qed.

Lemma get_delitem d k k' :
  get (delitem d k) k' = if key_eqb k' k then None else get d k'.
Proof.
  unfold delitem.
  induction d as [|[k0 v0] d IH]; simpl; [now destruct (key_eqb k' k)|].
  destruct (key_eqb k k0) eqn:E; simpl.
  - apply key_eqb_eq in E. subst k0. rewrite IH.
    now destruct (key_eqb k' k).
  - rewrite IH. destruct (key_eqb k' k0) eqn:E0; [|reflexivity].
    apply key_eqb_eq in E0. subst k0.
    now rewrite key_eqb_sym, E.
Qed.

Lemma setitem_new d k v : get d k = None -> setitem d k v = (d ++ [(k, v)])%list.
Proof.
  induction d as [|[k0 v0] d IH]; simpl; [reflexivity|].
  destruct (key_eqb k k0); [discriminate|].
  intro H. now rewrite IH.
Qed.

Lemma keys_setitem_old d k v :
  get d k <> None -> keys (setitem d k v) = keys d.
Proof.
  induction d as [|[k0 v0] d IH]; simpl; [congruence|].
  destruct (key_eqb k k0); simpl; [reflexivity|].
  intro H. now rewrite IH.
Qed.

Lemma NoDup_keys_setitem d k v :
  NoDup (keys d) -> NoDup (keys (setitem d k v)).
Proof.
  intro H. destruct (get d k) eqn:E.
  - rewrite keys_setitem_old; [exact H|congruence].
  - rewrite setitem_new by exact E. unfold keys. rewrite map_app. simpl.
    apply get_None_iff in E.
    apply NoDup_app; [exact H|repeat constructor; simpl; tauto|].
    intros x Hx [<-|[]]. now apply E.
Qed.

Lemma In_delitem d k kv :
  In kv (delitem d k) <-> In kv d /\ fst kv <> k.
Proof.
  unfold delitem. rewrite filter_In, negb_true_iff, key_eqb_neq.
  intuition congruence.
Qed.

Lemma NoDup_keys_delitem d k :
  NoDup (keys d) -> NoDup (keys (delitem d k)).
Proof.
  unfold delitem, keys.
  induction d as [|[k0 v0] d IH]; simpl; [trivial|].
  intro H. inversion H as [|? ? Hn Hd]; subst.
  destruct (negb (key_eqb k k0)); simpl; [|now apply IH].
  constructor; [|now apply IH].
  intro Hin. apply Hn. apply in_map_iff in Hin as (kv & Hk & Hf).
  apply filter_In in Hf as [Hf _]. apply in_map_iff. now exists kv.
Qed.

Lemma length_delitem d k v :
  NoDup (keys d) -> get d k = Some v ->
  S (List.length (delitem d k)) = List.length d.
Proof.
  unfold delitem, keys.
  induction d as [|[k0 v0] d IH]; simpl; [discriminate|].
  intros H G. inversion H as [|? ? Hn Hd]; subst.
  destruct (key_eqb k k0) eqn:E; simpl.
  - apply key_eqb_eq in E. subst k0. f_equal.
    assert (F : forall l : t A, ~ In k (map fst l) ->
              filter (fun kv => negb (key_eqb k (fst kv))) l = l).
    { induction l as [|[k1 v1] l IHl]; simpl; [reflexivity|].
      intro Hk. destruct (key_eqb k k1) eqn:E1.
      - apply key_eqb_eq in E1. subst k1. exfalso. apply Hk. now left.
      - simpl. f_equal. apply IHl. intro Hl. apply Hk. now right. }
    now rewrite F.
  - f_equal. now apply IH.
Qed.

End Entries.

(** [max] and [+ 1] on integer keys. *)

Lemma max_from_ints (m : Z) (l : list Z) :
  max_from (KInt m) (map KInt l) = Ok (KInt (fold_left Z.max l m)).
Proof.
  revert m. induction l as [|x l IH]; intro m; simpl; [reflexivity|].
  destruct (Z.ltb_spec m x).
  - rewrite IH. now rewrite Z.max_r by lia.
  - rewrite IH. now rewrite Z.max_l by lia.
Qed.

Lemma fold_max_ge (l : list Z) (m : Z) :
  m <= fold_left Z.max l m /\ Forall (fun x => x <= fold_left Z.max l m) l.
Proof.
  revert m. induction l as [|x l IH]; intro m; simpl.
  - split; [lia|constructor].
  - destruct (IH (Z.max m x)) as [H1 H2]. split; [lia|].
    constructor; [lia|exact H2].
Qed.

Lemma fold_max_In (l : list Z) (m : Z) : In (fold_left Z.max l m) (m :: l).
Proof.
  revert m. induction l as [|x l IH]; intro m; simpl; [now left|].
  destruct (IH (Z.max m x)) as [H|H]; [|now right; right].
  rewrite <- H.
  destruct (Z.max_spec m x) as [[_ E]|[_ E]]; rewrite E; [right|]; now left.
Qed.

(** When [max(l) + 1] is computed without a [TypeError], every element
    of [l] is an integer. *)
Lemma max_from_add1_ints (m : key) (l : list key) (r : key) (n : Z) :
  max_from m l = Ok r -> add1 r = Ok n ->
  exists zm zl, m = KInt zm /\ l = map KInt zl.
Proof.
  revert m. induction l as [|x l IH]; intros m Hm Ha; simpl in Hm.
  - injection Hm as <-. destruct m; try discriminate.
    now exists z, [].
  - destruct x as [x| |], m as [y| |]; simpl in Hm; try discriminate.
    + destruct (Z.ltb y x);
        destruct (IH _ Hm Ha) as (zm & zl & _ & ->);
        now exists y, (x :: zl).
    + destruct (String.ltb s0 s);
        destruct (IH _ Hm Ha) as (zm & zl & E & _); discriminate.
Qed.

End PyDictFacts.

(** ** The methods of the store, step by step *)


Lemma next_id_pure (st : state) : snd (_next_id st) = st.
Proof.
  unfold _next_id, bind, gets, lift, ret.
  destruct (todos st) as [|kv d]; [reflexivity|].
  now destruct (PyDict.max (PyDict.keys (kv :: d))).
Qed.

Lemma next_id_empty (st : state) : todos st = [] -> _next_id st = (Ok 1, st).
Proof. intro H. unfold _next_id, bind, gets, ret. now rewrite H. Qed.

Lemma next_id_ints (st : state) (z : Z) (zs : list Z) :
  PyDict.keys (todos st) = map KInt (z :: zs) ->
  _next_id st = (Ok (fold_left Z.max zs z + 1), st).
Proof.
  intro H. unfold _next_id, bind, gets, lift, ret.
  destruct (todos st) as [|kv d] eqn:E; [discriminate|].
  rewrite H. simpl. now rewrite PyDictFacts.max_from_ints.
Qed.

(** A successful [_next_id] means integer keys only, all of them below
    the result. *)
Lemma next_id_ok (st st' : state) (n : Z) :
  _next_id st = (Ok n, st') ->
  st' = st /\
  exists zs, PyDict.keys (todos st) = map KInt zs /\
             Forall (fun z => z < n) zs /\ (zs = [] -> n = 1).
Proof.
  intro H. split; [now rewrite <- (next_id_pure st), H|].
  unfold _next_id, bind, gets, lift, ret in H.
  destruct (todos st) as [|[k t] d] eqn:E.
  - injection H as <- _. now exists [].
  - simpl in H.
    destruct (PyDict.max_from k (PyDict.keys d)) as [r|] eqn:Hm;
      [|discriminate].
    destruct (PyDict.add1 r) as [n'|] eqn:Ha; [|discriminate].
    injection H as -> _.
    destruct (PyDictFacts.max_from_add1_ints _ _ _ _ Hm Ha)
      as (zm & zl & -> & Hl).
    exists (zm :: zl). simpl. rewrite Hl. split; [reflexivity|].
    rewrite Hl, PyDictFacts.max_from_ints in Hm. injection Hm as <-.
    simpl in Ha. injection Ha as <-.
    destruct (PyDictFacts.fold_max_ge zl zm) as [H1 H2].
    split; [|discriminate].
    constructor; [lia|].
    eapply Forall_impl; [|exact H2]. simpl. intros; lia.
Qed.

Lemma save_run (c : TodoCreate) (st : state) :
  save c st =
  match _next_id st with
  | (Ok n, _) =>
      match Todo_new n (tc_text c) (tc_done c) with
      | Ok t => (Ok t, committed st (PyDict.setitem (todos st) (KInt n) t))
      | Raise e => (Raise e, st)
      end
  | (Raise e, _) => (Raise e, st)
  end.
Proof.
  unfold save, bind.
  destruct (_next_id st) as [[n|e] st'] eqn:E;
    pose proof (next_id_pure st) as P; rewrite E in P; simpl in P; subst st';
    [|reflexivity].
  unfold lift. now destruct (Todo_new n (tc_text c) (tc_done c)).
Qed.

Lemma update_run (t : Todo) (st : state) :
  update t st =
  if PyDict.contains (todos st) (KInt (id t))
  then (Ok t, committed st (PyDict.setitem (todos st) (KInt (id t)) t))
  else (Raise ValueError, st).
Proof.
  unfold update, bind, gets.
  now destruct (PyDict.contains (todos st) (KInt (id t))).
Qed.

Lemma delete_run (i : Z) (st : state) :
  delete i st =
  if PyDict.contains (todos st) (KInt i)
  then (Ok tt, committed st (PyDict.delitem (todos st) (KInt i)))
  else (Raise ValueError, st).
Proof.
  unfold delete, bind, gets.
  now destruct (PyDict.contains (todos st) (KInt i)).
Qed.

Lemma get_all_run (st : state) :
  get_all st = (Ok (PyDict.values (todos st)), st).
Proof. reflexivity. Qed.

Lemma Todo_new_id (n : Z) (s : string) (b : bool) (t : Todo) :
  Todo_new n s b = Ok t ->
  id t = n /\ text t = PyStr.strip s /\ done t = b /\ valid_text (text t) = true.
Proof.
  unfold Todo_new. destruct (text_field (VStr s)) as [u|] eqn:E; [|discriminate].
  intro H. injection H as <-. simpl.
  pose proof (text_field_ok_valid _ _ E) as V.
  rewrite text_field_str in E.
  destruct (String.length (PyStr.strip s) <? MIN_TEXT_LENGTH)%nat;
    [discriminate|].
  injection E as <-. auto.
Qed.

Lemma all_ints_setitem (d : PyDict.t Todo) (n : Z) (t : Todo) :
  all_ints d -> all_ints (PyDict.setitem d (KInt n) t).
Proof.
  intros [zs H]. destruct (PyDict.get d (KInt n)) eqn:E.
  - exists zs. rewrite PyDictFacts.keys_setitem_old; [exact H|congruence].
  - exists (zs ++ [n])%list. rewrite PyDictFacts.setitem_new by exact E.
    unfold PyDict.keys in *. now rewrite !map_app, H.
Qed.

Lemma all_ints_delitem (d : PyDict.t Todo) (k : key) :
  all_ints d -> all_ints (PyDict.delitem d k).
Proof.
  unfold all_ints, PyDict.delitem, PyDict.keys.
  induction d as [|[k0 v0] d IH]; simpl; intros [zs H]; [now exists []|].
  destruct zs as [|z zs]; [discriminate|]. injection H as -> H.
  destruct (IH (ex_intro _ zs H)) as [zs' H'].
  destruct (negb (PyDict.key_eqb k (KInt z))); simpl;
    [exists (z :: zs'); simpl; now rewrite H'|now exists zs'].
Qed.

(** A [save] that returns: the id is the one [_next_id] gave, all keys
    are integers below it, and the record goes last in the mapping. *)
Lemma save_ok (c : TodoCreate) (st st' : state) (t : Todo) :
  save c st = (Ok t, st') ->
  exists zs,
    PyDict.keys (todos st) = map KInt zs /\
    Forall (fun z => z < id t) zs /\
    _next_id st = (Ok (id t), st) /\
    Todo_new (id t) (tc_text c) (tc_done c) = Ok t /\
    PyDict.get (todos st) (KInt (id t)) = None /\
    st' = committed st (todos st ++ [(KInt (id t), t)])%list.
Proof.
  rewrite save_run.
  destruct (_next_id st) as [[n|e] s] eqn:E; [|discriminate].
  destruct (Todo_new n (tc_text c) (tc_done c)) as [t'|] eqn:N; [|discriminate].
  intro H. injection H as -> <-.
  destruct (Todo_new_id _ _ _ _ N) as (Hid & _).
  destruct (next_id_ok _ _ _ E) as (-> & zs & Hk & Hlt & _).
  rewrite <- Hid in *. clear Hid n.
  assert (G : PyDict.get (todos st) (KInt (id t)) = None).
  { apply PyDictFacts.get_None_iff. rewrite Hk. intro Hin.
    apply in_map_iff in Hin as (z & Hz & Hin). injection Hz as ->.
    rewrite Forall_forall in Hlt. specialize (Hlt _ Hin). lia. }
  exists zs. repeat split; try assumption.
  now rewrite PyDictFacts.setitem_new by exact G.
Qed.

(** [save] returns whenever the keys are integers and the text passes
    the validator. *)
Lemma save_returns (c : TodoCreate) (st : state) :
  all_ints (todos st) ->
  is_ok (text_field (VStr (tc_text c))) = true ->
  exists t st', save c st = (Ok t, st').
Proof.
  intros [zs Hk] Hv. rewrite save_run.
  assert (N : exists n, _next_id st = (Ok n, st)).
  { destruct zs as [|z zs].
    - eexists. apply next_id_empty.
      destruct (todos st); [reflexivity|discriminate].
    - exists (fold_left Z.max zs z + 1). apply next_id_ints. exact Hk. }
  destruct N as [n ->]. unfold Todo_new.
  destruct (text_field (VStr (tc_text c))); [|discriminate].
  now eexists _, _.
Qed.

Lemma fold_max_seq (a n : nat) :
  fold_left Z.max (map Z.of_nat (seq (S a) n)) (Z.of_nat a) = Z.of_nat (a + n).
Proof.
  revert a. induction n as [|n IH]; intro a; simpl.
  - f_equal. lia.
  - rewrite Z.max_r by lia. change (Z.pos (Pos.of_succ_nat a)) with (Z.of_nat (S a)).
    rewrite IH. f_equal. lia.
Qed.

Lemma one_to_snoc (n : nat) :
  one_to (S n) = (one_to n ++ [Z.of_nat (S n)])%list.
Proof. unfold one_to. now rewrite seq_S, map_app. Qed.

Lemma In_one_to (n : nat) (z : Z) : In z (one_to n) <-> 1 <= z <= Z.of_nat n.
Proof.
  unfold one_to. rewrite in_map_iff. split.
  - intros (k & <- & Hk). apply in_seq in Hk. lia.
  - intro H. exists (Z.to_nat z). split; [lia|]. apply in_seq. lia.
Qed.

(** With the keys [1..k] stored, the next id is [k + 1]. *)
Lemma next_id_one_to (st : state) (k : nat) :
  PyDict.keys (todos st) = map KInt (one_to k) ->
  _next_id st = (Ok (Z.of_nat (S k)), st).
Proof.
  destruct k as [|k]; intro H.
  - apply next_id_empty. destruct (todos st); [reflexivity|discriminate].
  - unfold one_to in H. simpl in H.
    rewrite (next_id_ints st 1 (map Z.of_nat (seq 2 k))) by exact H.
    change 1 with (Z.of_nat 1). rewrite fold_max_seq. do 2 f_equal. lia.
Qed.

Lemma save_each_numbers (inputs : list TodoCreate) :
  forall (k : nat) (st st' : state) (ts : list Todo),
    PyDict.keys (todos st) = map KInt (one_to k) ->
    map id (PyDict.values (todos st)) = one_to k ->
    save_each inputs st = (Ok ts, st') ->
    map id ts = map Z.of_nat (seq (S k) (List.length inputs)) /\
    PyDict.keys (todos st') = map KInt (one_to (k + List.length inputs)) /\
    map id (PyDict.values (todos st')) = one_to (k + List.length inputs).
Proof.
  induction inputs as [|c inputs IH]; intros k st st' ts Hk Hv H; simpl in H.
  - injection H as <- <-. simpl. now rewrite Nat.add_0_r.
  - unfold bind in H.
    destruct (save c st) as [[t|e] s1] eqn:S1; [|discriminate].
    destruct (save_each inputs s1) as [[ts'|e] s2] eqn:S2; [|discriminate].
    injection H as <- <-.
    destruct (save_ok _ _ _ _ S1) as (zs & _ & _ & Hn & _ & _ & ->).
    rewrite (next_id_one_to st k Hk) in Hn.
    assert (Hid : Z.of_nat (S k) = id t) by congruence.
    clear Hn. rename Hid into Hn.
    assert (K1 : PyDict.keys (todos (committed st (todos st ++ [(KInt (id t), t)])%list))
                 = map KInt (one_to (S k))).
    { cbn [todos committed]. unfold PyDict.keys in *.
      rewrite one_to_snoc, !map_app, Hk. cbn [map fst]. now rewrite Hn. }
    assert (V1 : map id (PyDict.values
                          (todos (committed st (todos st ++ [(KInt (id t), t)])%list)))
                 = one_to (S k)).
    { cbn [todos committed]. unfold PyDict.values in *.
      rewrite one_to_snoc, !map_app, Hv. cbn [map snd]. now rewrite Hn. }
    destruct (IH (S k) _ _ _ K1 V1 S2) as (I1 & I2 & I3).
    cbn [List.length]. rewrite <- Nat.add_succ_comm.
    split; [|now split].
    cbn [map seq]. rewrite I1. f_equal. now rewrite Hn.
Qed.

(** The states reached from integer keys by [save] and [delete] calls
    have integer keys. *)
Lemma run_ops_all_ints (ops : list op) :
  forall (st st' : state) (ids : list Z),
    all_ints (todos st) -> run_ops ops st = (ids, st') -> all_ints (todos st').
Proof.
  induction ops as [|[c|i] ops IH]; intros st st' ids A H; simpl in H.
  - now injection H as _ <-.
  - rewrite save_run in H.
    assert (N : snd (_next_id st) = st) by apply next_id_pure.
    destruct (_next_id st) as [[n|e] s]; simpl in N; subst s;
      [|now apply (IH _ _ _ A H)].
    destruct (Todo_new n (tc_text c) (tc_done c)) as [t|];
      [|now apply (IH _ _ _ A H)].
    destruct (run_ops ops _) as [ids' s'] eqn:R. injection H as _ <-.
    apply (IH (committed st (PyDict.setitem (todos st) (KInt n) t)) _ _
              (all_ints_setitem _ n t A) R).
  - rewrite delete_run in H.
    destruct (PyDict.contains (todos st) (KInt i)); simpl in H;
      [|now apply (IH _ _ _ A H)].
    apply (IH (committed st (PyDict.delitem (todos st) (KInt i))) _ _
              (all_ints_delitem _ (KInt i) A) H).
Qed.

Lemma save_raise_state (c : TodoCreate) (st : state) :
  is_ok (fst (save c st)) = false -> snd (save c st) = st.
Proof.
  rewrite save_run. destruct (_next_id st) as [[n|e] s]; [|reflexivity].
  now destruct (Todo_new n (tc_text c) (tc_done c)).
Qed.

(** [_next_id] raises nothing but [TypeError]. *)
Lemma next_id_raises_TypeError (st st' : state) (e : exn) :
  _next_id st = (Raise e, st') -> e = TypeError.
Proof.
  unfold _next_id, bind, gets, lift, ret.
  destruct (todos st) as [|[k v] d]; [discriminate|]. simpl.
  destruct (PyDict.max_from k (PyDict.keys d)) as [r|e'] eqn:Hm.
  - destruct r; simpl; intro H; try discriminate; now injection H as <-.
  - intro H. injection H as <- _. revert k Hm.
    induction (PyDict.keys d) as [|x l IH]; intros k Hm; simpl in Hm;
      [discriminate|].
    destruct x, k; simpl in Hm; try (now injection Hm as <-);
      match type of Hm with
      | context [if ?b then _ else _] => destruct b
      end; eauto.
Qed.

(** The validation that [save] itself makes, when it builds the [Todo]. *)
Lemma save_validation_error (c : TodoCreate) (st : state) :
  fst (save c st) = Raise ValidationError ->
  (String.length (PyStr.strip (tc_text c)) < MIN_TEXT_LENGTH)%nat.
Proof.
  rewrite save_run. destruct (_next_id st) as [[n|e] s1] eqn:E.
  - unfold Todo_new. rewrite text_field_str.
    destruct (Nat.ltb_spec (String.length (PyStr.strip (tc_text c)))
                MIN_TEXT_LENGTH); [intros _; assumption|discriminate].
  - simpl. intro H. injection H as ->.
    apply next_id_raises_TypeError in E. discriminate.
Qed.

Lemma save_short_text_raises (c : TodoCreate) (st : state) :
  all_ints (todos st) ->
  (String.length (PyStr.strip (tc_text c)) < MIN_TEXT_LENGTH)%nat ->
  save c st = (Raise ValidationError, st).
Proof.
  intros [zs Hk] L. rewrite save_run.
  assert (N : exists n, _next_id st = (Ok n, st)).
  { destruct zs as [|z zs].
    - eexists. apply next_id_empty.
      destruct (todos st); [reflexivity|discriminate].
    - exists (fold_left Z.max zs z + 1). apply next_id_ints. exact Hk. }
  destruct N as [n ->]. unfold Todo_new. rewrite text_field_str.
  apply Nat.ltb_lt in L. now rewrite L.
Qed.

Lemma save_ok_record (c : TodoCreate) (st st' : state) (t : Todo) :
  save c st = (Ok t, st') ->
  text t = PyStr.strip (tc_text c) /\ done t = tc_done c /\
  PyDict.get (todos st') (KInt (id t)) = Some t.
Proof.
  intro H. destruct (save_ok _ _ _ _ H) as (_ & _ & _ & _ & N & G & ->).
  apply Todo_new_id in N as (_ & T & D & _).
  split; [exact T|]. split; [exact D|].
  cbn [todos committed]. rewrite <- (PyDictFacts.setitem_new _ _ _ G).
  now rewrite PyDictFacts.get_setitem, PyDictFacts.key_eqb_refl.
Qed.

(** The constructor of [TodoCreate]: what it raises and what it
    returns. *)
Lemma TodoCreate_new_cases (lax_bool : value -> option bool)
  (text0 : value) (done0 : option value) :
  match text0 with
  | VStr s =>
      if (String.length (PyStr.strip s) <? MIN_TEXT_LENGTH)%nat
      then TodoCreate_new lax_bool text0 done0 = Raise ValidationError
      else match done_field lax_bool done0 with
           | Some b => TodoCreate_new lax_bool text0 done0
                       = Ok (mkTodoCreate (PyStr.strip s) b)
           | None => TodoCreate_new lax_bool text0 done0 = Raise ValidationError
           end
  | _ => TodoCreate_new lax_bool text0 done0 = Raise ValidationError
  end.
Proof.
  destruct text0 as [| | |s| |]; try reflexivity.
  unfold TodoCreate_new. rewrite text_field_str.
  destruct (String.length (PyStr.strip s) <? MIN_TEXT_LENGTH)%nat; [reflexivity|].
  now destruct (done_field lax_bool done0).
Qed.

(** ** The contract of the store *)

(** C4.  [update] with a record whose id is not a key of the mapping
    raises [ValueError] (the store's not-found condition) and leaves the
    whole state as it was: the mapping gains and changes no record and the
    backing file is not written. *)
Theorem update_missing_id_raises (st : state) (t : Todo) :
  PyDict.contains (todos st) (KInt (id t)) = false ->
  update t st = (Raise ValueError, st) /\
  (forall st', snd (update t st) = st' ->
     todos st' = todos st /\ disk st' = disk st).
Proof.
  intro H. rewrite update_run, H. split; [reflexivity|].
  simpl. now intros st' <-.
Qed.

(** C5.  [delete] with an id that is not a key raises [ValueError] and
    leaves the mapping and the file as they were; with an id that is a
    key it returns, the id is no longer a key, every other entry is kept
    as it was and in the same order, and the file is rewritten from the
    remaining records. *)
Theorem delete_removes_exactly_one (st : state) (i : Z) :
  match PyDict.get (todos st) (KInt i) with
  | None => delete i st = (Raise ValueError, st)
  | Some t =>
      exists st',
        delete i st = (Ok tt, st') /\
        PyDict.get (todos st') (KInt i) = None /\
        (forall k, k <> KInt i ->
           PyDict.get (todos st') k = PyDict.get (todos st) k) /\
        (forall kv, In kv (todos st') <-> In kv (todos st) /\ fst kv <> KInt i) /\
        (NoDup (PyDict.keys (todos st)) ->
           S (List.length (todos st')) = List.length (todos st)) /\
        disk st' = written (todos st')
  end.
Proof.
  rewrite delete_run. unfold PyDict.contains.
  destruct (PyDict.get (todos st) (KInt i)) as [t|] eqn:E; [|reflexivity].
  eexists. split; [reflexivity|]. simpl.
  split; [now rewrite PyDictFacts.get_delitem, PyDictFacts.key_eqb_refl|].
  split.
  { intros k Hk. rewrite PyDictFacts.get_delitem.
    apply PyDictFacts.key_eqb_neq in Hk. now rewrite Hk. }
  split; [intro kv; apply PyDictFacts.In_delitem|].
  split; [|reflexivity].
  intro N. now apply PyDictFacts.length_delitem with (v := t).
Qed.

(** C3.  When [save], [update] or [delete] returns, the backing file
    holds the JSON array of the dumps of the records of the mapping, in
    the mapping's order: a JSON object is in the file exactly when it is
    the dump of a record in memory. *)
Theorem file_reflects_memory (m : mutation) (st st' : state) :
  mutate m st = (Ok tt, st') ->
  disk st' = Document (VList (map Todo_model_dump (PyDict.values (todos st')))) /\
  exists l, disk st' = Document (VList l) /\
    forall v, In v l <-> exists k t, In (k, t) (todos st') /\ v = Todo_model_dump t.
Proof.
  intro H.
  assert (D : disk st' = written (todos st')).
  { destruct m as [c|t|i]; simpl in H; unfold bind in H.
    - rewrite save_run in H.
      destruct (_next_id st) as [[n|e] s]; [|discriminate].
      destruct (Todo_new n (tc_text c) (tc_done c)); [|discriminate].
      now injection H as <-.
    - rewrite update_run in H.
      destruct (PyDict.contains (todos st) (KInt (id t))); [|discriminate].
      now injection H as <-.
    - rewrite delete_run in H.
      destruct (PyDict.contains (todos st) (KInt i)); [|discriminate].
      now injection H as <-. }
  split; [exact D|]. eexists. split; [exact D|].
  intro v. unfold PyDict.values. rewrite map_map, in_map_iff. split.
  - intros ([k t] & <- & Hin). now exists k, t.
  - intros (k & t & Hin & ->). now exists (k, t).
Qed.


(** C2.  Starting from an empty mapping, [N] [save] calls that all
    return assign the ids 1, 2, ..., N in call order, and afterwards the
    ids of the records returned by [get_all] are exactly the integers from
    1 to N. *)
Theorem saves_from_empty_assign_1_to_N
  (inputs : list TodoCreate) (st0 st : state) (ts : list Todo) :
  todos st0 = [] ->
  save_each inputs st0 = (Ok ts, st) ->
  map id ts = one_to (List.length inputs) /\
  exists l, get_all st = (Ok l, st) /\
    map id l = one_to (List.length inputs) /\
    (forall z, In z (map id l) <-> 1 <= z <= Z.of_nat (List.length inputs)).
Proof.
  intros E H.
  destruct (save_each_numbers inputs 0 st0 st ts) as (I1 & _ & I3);
    [now rewrite E|now rewrite E|exact H|].
  split; [exact I1|].
  exists (PyDict.values (todos st)). split; [reflexivity|].
  split; [exact I3|].
  intro z. rewrite I3. apply In_one_to.
Qed.

(** C1, as amended.  In every state reached from an empty mapping by
    [save] and [delete] calls, [_next_id] returns 1 when the mapping is
    empty and otherwise one more than the largest key; this is the id a
    following [save] assigns.  It strictly exceeds every id stored at that
    moment, so it is not the id of a deleted record as long as a record
    with a larger id is stored, and it exceeds every id assigned so far
    whenever the largest of them is still stored. *)
Theorem save_id_exceeds_current_ids
  (ops : list op) (st0 st : state) (ids : list Z) (c : TodoCreate) :
  todos st0 = [] ->
  run_ops ops st0 = (ids, st) ->
  exists n,
    _next_id st = (Ok n, st) /\
    (todos st = [] -> n = 1) /\
    (todos st <> [] -> In (KInt (n - 1)) (PyDict.keys (todos st))) /\
    (forall k, In k (PyDict.keys (todos st)) -> exists z, k = KInt z /\ z < n) /\
    (forall d z, d <= z -> In (KInt z) (PyDict.keys (todos st)) -> n <> d) /\
    (forall m, In (KInt m) (PyDict.keys (todos st)) ->
       Forall (fun z => z <= m) ids -> Forall (fun z => z < n) ids) /\
    (forall t st', save c st = (Ok t, st') -> id t = n) /\
    (is_ok (text_field (VStr (tc_text c))) = true ->
       exists t st', save c st = (Ok t, st')).
Proof.
  intros E R.
  assert (A : all_ints (todos st)).
  { apply (run_ops_all_ints ops st0 st ids); [|exact R].
    exists []. now rewrite E. }
  destruct A as [zs Hk].
  assert (N : exists n, _next_id st = (Ok n, st) /\
                (todos st <> [] -> In (KInt (n - 1)) (PyDict.keys (todos st)))).
  { destruct zs as [|z zs].
    - exists 1. destruct (todos st) eqn:T; [|discriminate].
      split; [apply next_id_empty; exact T|congruence].
    - exists (fold_left Z.max zs z + 1). split; [now apply next_id_ints|].
      intros _. rewrite Hk. apply in_map.
      replace (fold_left Z.max zs z + 1 - 1) with (fold_left Z.max zs z) by lia.
      apply PyDictFacts.fold_max_In. }
  destruct N as (n & Hn & Hmax). exists n.
  destruct (next_id_ok _ _ _ Hn) as (_ & zs' & Hk' & Hlt & He).
  assert (B : forall k, In k (PyDict.keys (todos st)) ->
                exists z, k = KInt z /\ z < n).
  { intros k Hin. rewrite Hk' in Hin. apply in_map_iff in Hin as (z & <- & Hz).
    exists z. split; [reflexivity|].
    rewrite Forall_forall in Hlt. now apply Hlt. }
  split; [exact Hn|]. split.
  { intro T. apply He. rewrite T in Hk'. destruct zs'; [reflexivity|discriminate]. }
  split; [exact Hmax|]. split; [exact B|]. split.
  { intros d z Hd Hin. destruct (B _ Hin) as (z' & Hz & Hl).
    injection Hz as <-. lia. }
  split.
  { intros m Hin Hle. destruct (B _ Hin) as (z' & Hz & Hl).
    injection Hz as <-. eapply Forall_impl; [|exact Hle].
    cbn beta. intros; lia. }
  split.
  - intros t st' S. destruct (save_ok _ _ _ _ S) as (_ & _ & _ & Hn' & _).
    congruence.
  - intro V. apply save_returns; [now exists zs|exact V].
Qed.

(** C6, as amended.  [save] of a creation input raises
    [ValidationError] (the invalid-input condition) exactly when the
    text is not a string, or is shorter than two characters once
    stripped, or [done] is given and the field [done: bool] does not
    take it; then nothing is stored.  A record that [save] returns
    carries the stripped text and is stored under its id, and with
    integer keys every other input is accepted.  [save] makes the check
    of the text itself, on the [TodoCreate] it is given: a
    [ValidationError] of [save] means a text shorter than two characters
    once stripped and an untouched store, with integer keys such a text
    is always refused, and a returned record has the stripped text.  So
    "a" is rejected, and with [done] absent or a boolean "ab" is accepted
    and "  ab  " is stored as "ab". *)
Theorem save_rejects_short_text
  (lax_bool : value -> option bool) (text0 : value) (done0 : option value)
  (c : TodoCreate) (st : state) :
  (fst (save_new lax_bool text0 done0 st) = Raise ValidationError <->
   match text0 with
   | VStr s => (String.length (PyStr.strip s) < 2)%nat
   | _ => True
   end \/ done_field lax_bool done0 = None) /\
  (fst (save_new lax_bool text0 done0 st) = Raise ValidationError ->
   snd (save_new lax_bool text0 done0 st) = st) /\
  (forall t st', save_new lax_bool text0 done0 st = (Ok t, st') ->
     exists s, text0 = VStr s /\ text t = PyStr.strip s /\
               done_field lax_bool done0 = Some (done t) /\
               PyDict.get (todos st') (KInt (id t)) = Some t) /\
  (all_ints (todos st) ->
   fst (save_new lax_bool text0 done0 st) <> Raise ValidationError ->
   exists t st', save_new lax_bool text0 done0 st = (Ok t, st')) /\
  (fst (save c st) = Raise ValidationError ->
   (String.length (PyStr.strip (tc_text c)) < 2)%nat /\ snd (save c st) = st) /\
  (all_ints (todos st) ->
   (String.length (PyStr.strip (tc_text c)) < 2)%nat ->
   save c st = (Raise ValidationError, st)) /\
  (forall t st', save c st = (Ok t, st') ->
     text t = PyStr.strip (tc_text c) /\ done t = tc_done c /\
     PyDict.get (todos st') (KInt (id t)) = Some t) /\
  fst (save_new lax_bool (VStr "a") done0 st) = Raise ValidationError /\
  (all_ints (todos st) -> done_field lax_bool done0 <> None ->
   (exists t st', save_new lax_bool (VStr "ab") done0 st = (Ok t, st') /\
                  text t = "ab") /\
   (exists t st', save_new lax_bool (VStr "  ab  ") done0 st = (Ok t, st') /\
                  text t = "ab")).
Proof.
  (* the constructor refuses, or hands a stripped text to [save] *)
  assert (R : forall tx,
    (TodoCreate_new lax_bool tx done0 = Raise ValidationError /\
     save_new lax_bool tx done0 st = (Raise ValidationError, st) /\
     (match tx with
      | VStr s => (String.length (PyStr.strip s) < 2)%nat
      | _ => True
      end \/ done_field lax_bool done0 = None)) \/
    (exists s b, tx = VStr s /\
       (2 <= String.length (PyStr.strip s))%nat /\
       done_field lax_bool done0 = Some b /\
       save_new lax_bool tx done0 st = save (mkTodoCreate (PyStr.strip s) b) st)).
  { intro tx. pose proof (TodoCreate_new_cases lax_bool tx done0) as T.
    unfold save_new, bind, lift.
    destruct tx as [| | |s| |];
      try (left; rewrite T; split; [reflexivity|split; [reflexivity|now left]]).
    destruct (Nat.ltb_spec (String.length (PyStr.strip s)) MIN_TEXT_LENGTH) as [L|L].
    - left. rewrite T. split; [reflexivity|]. split; [reflexivity|now left].
    - destruct (done_field lax_bool done0) as [b|] eqn:D.
      + right. exists s, b. rewrite T. now repeat split.
      + left. rewrite T. split; [reflexivity|]. split; [reflexivity|now right]. }
  assert (V : forall s b, (2 <= String.length (PyStr.strip s))%nat ->
                fst (save (mkTodoCreate (PyStr.strip s) b) st)
                <> Raise ValidationError).
  { intros s b L H. apply save_validation_error in H. cbn [tc_text] in H.
    rewrite PyStrFacts.strip_idem in H. unfold MIN_TEXT_LENGTH in H. lia. }
  assert (W : forall s, all_ints (todos st) ->
                (2 <= String.length (PyStr.strip s))%nat ->
                done_field lax_bool done0 <> None ->
                exists t st', save_new lax_bool (VStr s) done0 st = (Ok t, st') /\
                              text t = PyStr.strip s).
  { intros s A L D. destruct (R (VStr s)) as [(_ & _ & [B|B])|(s' & b & E & _ & _ & Q)].
    - lia.
    - contradiction.
    - injection E as <-. rewrite Q.
      destruct (save_returns (mkTodoCreate (PyStr.strip s) b) st A)
        as (t & st' & Sv).
      { cbn [tc_text]. rewrite text_field_str, PyStrFacts.strip_idem.
        destruct (Nat.ltb_spec (String.length (PyStr.strip s)) MIN_TEXT_LENGTH);
          [unfold MIN_TEXT_LENGTH in *; lia|reflexivity]. }
      exists t, st'. split; [exact Sv|].
      destruct (save_ok_record _ _ _ _ Sv) as (T & _). cbn [tc_text] in T.
      now rewrite PyStrFacts.strip_idem in T. }
  split.
  { destruct (R text0) as [(_ & Q & B)|(s & b & -> & L & D & Q)].
    - rewrite Q. split; [intros _; exact B|reflexivity].
    - rewrite Q. split.
      + intro H. now elim (V s b L).
      + intros [B|B]; [lia|congruence]. }
  split.
  { destruct (R text0) as [(_ & Q & _)|(s & b & -> & L & _ & Q)].
    - now rewrite Q.
    - rewrite Q. intro H. now elim (V s b L). }
  split.
  { intros t st' H.
    destruct (R text0) as [(_ & Q & _)|(s & b & -> & L & D & Q)].
    - rewrite Q in H. discriminate.
    - rewrite Q in H. destruct (save_ok_record _ _ _ _ H) as (T & Dn & G).
      cbn [tc_text tc_done] in *. rewrite PyStrFacts.strip_idem in T.
      exists s. rewrite Dn. now repeat split. }
  split.
  { intros A H.
    destruct (R text0) as [(_ & Q & _)|(s & b & -> & L & D & Q)].
    - rewrite Q in H. now elim H.
    - destruct (W s A L) as (t & st' & Sv & _); [congruence|].
      now exists t, st'. }
  split.
  { intro H. split; [exact (save_validation_error c st H)|].
    apply save_raise_state. now rewrite H. }
  split; [apply save_short_text_raises|].
  split; [intros t st'; apply save_ok_record|].
  split.
  { destruct (R (VStr "a")) as [(_ & Q & _)|(s & b & E & L & _)].
    - now rewrite Q.
    - injection E as <-. simpl in L. lia. }
  intros A D. split.
  - apply (W "ab" A); [simpl; lia|exact D].
  - apply (W "  ab  " A); [simpl; lia|exact D].
Qed.

(** ** Reading the backing file *)


Lemma get_set_each_other (es d : PyDict.t Todo) (k : key) :
  ~ In k (PyDict.keys es) -> PyDict.get (set_each es d) k = PyDict.get d k.
Proof.
  revert d. induction es as [|[k' v'] es IH]; intros d H; simpl; [reflexivity|].
  simpl in H. rewrite IH by tauto. rewrite PyDictFacts.get_setitem.
  assert (N : k <> k') by (intro; subst; tauto).
  apply PyDictFacts.key_eqb_neq in N. now rewrite N.
Qed.

Lemma get_set_each_last (e1 e2 d : PyDict.t Todo) (k : key) (t : Todo) :
  ~ In k (PyDict.keys e2) ->
  PyDict.get (set_each (e1 ++ (k, t) :: e2)%list d) k = Some t.
Proof.
  intro H. unfold set_each. rewrite fold_left_app. simpl.
  fold (set_each e2 (PyDict.setitem (fold_left
          (fun d kv => PyDict.setitem d (fst kv) (snd kv)) e1 d) k t)).
  rewrite get_set_each_other by exact H.
  now rewrite PyDictFacts.get_setitem, PyDictFacts.key_eqb_refl.
Qed.

Lemma keys_set_each (es d : PyDict.t Todo) (k : key) :
  In k (PyDict.keys (set_each es d)) <->
  In k (PyDict.keys d) \/ In k (PyDict.keys es).
Proof.
  revert d. induction es as [|[k' v'] es IH]; intro d; simpl; [tauto|].
  rewrite IH. simpl.
  assert (S : In k (PyDict.keys (PyDict.setitem d k' v')) <->
              In k (PyDict.keys d) \/ k' = k).
  { destruct (PyDict.get d k') eqn:G.
    - rewrite PyDictFacts.keys_setitem_old by congruence.
      split; [tauto|]. intros [H|<-]; [exact H|].
      apply PyDictFacts.get_In in G. apply in_map_iff. now exists (k', t).
    - rewrite PyDictFacts.setitem_new by exact G.
      unfold PyDict.keys. rewrite map_app, in_app_iff. simpl. tauto. }
  rewrite S. tauto.
Qed.

Lemma NoDup_keys_set_each (es d : PyDict.t Todo) :
  NoDup (PyDict.keys d) -> NoDup (PyDict.keys (set_each es d)).
Proof.
  revert d. induction es as [|[k v] es IH]; intros d H; simpl; [exact H|].
  apply IH. now apply PyDictFacts.NoDup_keys_setitem.
Qed.

(** Entries with distinct keys that are not in [d] are appended in
    order. *)
Lemma set_each_fresh (es d : PyDict.t Todo) :
  NoDup (PyDict.keys (d ++ es)%list) -> set_each es d = (d ++ es)%list.
Proof.
  revert d. induction es as [|[k v] es IH]; intros d H; simpl.
  - now rewrite app_nil_r.
  - assert (G : PyDict.get d k = None).
    { apply PyDictFacts.get_None_iff. unfold PyDict.keys in *.
      rewrite map_app in H. simpl in H.
      apply NoDup_remove_2 in H. rewrite in_app_iff in H. tauto. }
    rewrite PyDictFacts.setitem_new by exact G.
    change (fold_left _ es ?x) with (set_each es x).
    rewrite IH; rewrite <- app_assoc; [reflexivity|exact H].
Qed.

Lemma getitem_dump_id (t : Todo) :
  py_getitem (Todo_model_dump t) "id" = Ok (VInt (id t)).
Proof. reflexivity. Qed.

Section ReadingFacts.

Variable lax_int : value -> option Z.
Variable lax_bool : value -> option bool.

Lemma validate_dump (t : Todo) :
valid_text (text t) = true ->
Todo_model_validate lax_int lax_bool (Todo_model_dump t) = Ok t.
Proof.
destruct t as [s b z]. cbn [text]. intro V.
unfold Todo_model_validate, Todo_model_dump. cbn [text done id].
change (dict_get _ "text") with (Some (VStr s)).
change (dict_get _ "done") with (Some (VBool b)).
change (dict_get _ "id") with (Some (VInt z)).
cbn [done_field int_field]. now rewrite (text_field_valid _ V).
Qed.

(** The keyword constructor of [save] is the validation of its keyword
    arguments. *)
Lemma Todo_new_is_validate (n : Z) (s : string) (b : bool) :
  Todo_model_validate lax_int lax_bool
    (VDict [("id", VInt n); ("text", VStr s); ("done", VBool b)])
  = Todo_new n s b.
Proof.
  unfold Todo_model_validate, Todo_new.
  change (dict_get _ "text") with (Some (VStr s)).
  change (dict_get _ "done") with (Some (VBool b)).
  change (dict_get _ "id") with (Some (VInt n)).
  cbn [done_field int_field]. now destruct (text_field (VStr s)).
Qed.

Lemma reads_as_dump (k : key) (t : Todo) :
k = KInt (id t) -> valid_text (text t) = true ->
reads_as lax_int lax_bool (Todo_model_dump t) (k, t).
Proof.
intros -> V. exists (VInt (id t)). repeat split. now apply validate_dump.
Qed.

Lemma read_items_accepted (items : list value) (es : PyDict.t Todo) :
Forall2 (reads_as lax_int lax_bool) items es ->
forall d, read_items lax_int lax_bool items d = Ok (set_each es d).
Proof.
induction 1 as [|v [k t] items es (r & H1 & H2 & H3) _ IH]; intro d;
  [reflexivity|].
simpl in *. now rewrite H1, H3, H2, IH.
Qed.

Lemma init_document (fname : string) (doc : value) :
TodoDao_init lax_int lax_bool fname (Document doc) =
let* items := py_iter doc in
let* d := read_items lax_int lax_bool items [] in
Ok (mkState fname d (Document doc) []).
Proof.
unfold TodoDao_init, _read_all, bind, gets, lift.
simpl. destruct (py_iter doc) as [items|]; [|reflexivity].
now destruct (read_items lax_int lax_bool items []).
Qed.

Lemma validate_unacceptable (v : value) :
unacceptable v = true ->
is_ok (py_getitem v "id") = false \/
is_ok (Todo_model_validate lax_int lax_bool v) = false.
Proof.
destruct v as [| | | | |d]; try discriminate.
unfold unacceptable, py_getitem, Todo_model_validate.
destruct (dict_get d "id") as [i|]; [|now left].
intro H. right.
destruct (dict_get d "text") as [x|]; [|reflexivity].
destruct (done_field lax_bool (dict_get d "done")); [|reflexivity].
destruct x as [| | |s| |]; try reflexivity.
rewrite text_field_str, H. reflexivity.
Qed.

Lemma read_items_unacceptable (items : list value) :
existsb unacceptable items = true ->
forall d, is_ok (read_items lax_int lax_bool items d) = false.
Proof.
induction items as [|v items IH]; [discriminate|].
intros H d. simpl in H. simpl.
destruct (py_getitem v "id") as [r|] eqn:G; [|reflexivity].
destruct (Todo_model_validate lax_int lax_bool v) as [t|] eqn:V;
  [|reflexivity].
destruct (PyDict.key_of r); [|reflexivity].
apply IH. destruct (unacceptable v) eqn:U; [|exact H].
destruct (validate_unacceptable v U) as [F|F].
- rewrite G in F. discriminate.
- rewrite V in F. discriminate.
Qed.

(** C7.  For a mapping with distinct keys in which every record is
  stored under its own id and has a text that the validator leaves as
  it is, [_write_all] on the mapping's values followed by the
  construction of a new store from the written file gives a store whose
  mapping is the original one, entry by entry. *)
Theorem write_then_init_round_trip (st st1 : state) :
NoDup (PyDict.keys (todos st)) ->
Forall (fun kt => fst kt = KInt (id (snd kt)) /\
                  valid_text (text (snd kt)) = true) (todos st) ->
_write_all (PyDict.values (todos st)) st = (Ok tt, st1) ->
exists st2,
  TodoDao_init lax_int lax_bool (filename st1) (disk st1) = Ok st2 /\
  todos st2 = todos st /\
  forall i, fst (get i st2) = fst (get i st).
Proof.
intros N V W. unfold _write_all, set_disk in W. injection W as <-.
cbn [filename disk]. rewrite init_document. cbn [py_iter].
rewrite (read_items_accepted _ (todos st)).
- rewrite set_each_fresh by exact N. simpl. eexists.
  split; [reflexivity|]. split; reflexivity.
- unfold PyDict.values. rewrite map_map.
  induction V as [|[k t] d [Hk Ht] _ IH]; simpl; constructor.
  + now apply reads_as_dump.
  + apply IH. now inversion N.
Qed.

(** C8.  When the file does not exist the constructor returns a store
  with an empty mapping and logs one warning.  It raises when the file
  is not valid JSON, and when the file is a JSON array one of whose
  elements is an object without [id], without [text], with a [text]
  that is not a string, or with a [text] shorter than two characters
  once stripped. *)
Theorem init_missing_or_malformed_file (fname : string) :
TodoDao_init lax_int lax_bool fname Absent =
  Ok (mkState fname [] Absent
        [("Todo data file '" ++ fname ++ "' not found. "
          ++ "Returning an empty todo list.")%string]) /\
TodoDao_init lax_int lax_bool fname Undecodable = Raise JSONDecodeError /\
(forall items, existsb unacceptable items = true ->
   exists e, TodoDao_init lax_int lax_bool fname (Document (VList items))
             = Raise e).
Proof.
split; [reflexivity|]. split; [reflexivity|].
intros items H. rewrite init_document. cbn [py_iter].
pose proof (read_items_unacceptable items H []) as F.
destruct (read_items lax_int lax_bool items []); [discriminate|].
now eexists.
Qed.

(** C10.  The constructor does not check that ids are distinct.  When
  every element of the JSON array is accepted by the loop, the
  constructor returns; each key occurs once in the mapping, the keys
  are those of the elements, and a key is mapped to the record of the
  last element that has it: the records of earlier elements with the
  same id are gone. *)
Theorem init_keeps_last_record_of_an_id
(fname : string) (items : list value) (es : list (key * Todo)) :
Forall2 (reads_as lax_int lax_bool) items es ->
exists st,
  TodoDao_init lax_int lax_bool fname (Document (VList items)) = Ok st /\
  NoDup (PyDict.keys (todos st)) /\
  (forall k, In k (PyDict.keys (todos st)) <-> In k (map fst es)) /\
  (forall e1 k t e2, es = (e1 ++ (k, t) :: e2)%list -> ~ In k (map fst e2) ->
     PyDict.get (todos st) k = Some t /\
     forall t', In (k, t') (todos st) -> t' = t).
Proof.
intro F. rewrite init_document. cbn [py_iter].
rewrite (read_items_accepted _ es F). eexists. split; [reflexivity|].
cbn [todos].
assert (N : NoDup (PyDict.keys (set_each es []))).
{ apply NoDup_keys_set_each. constructor. }
split; [exact N|]. split.
{ intro k. rewrite keys_set_each. simpl. tauto. }
intros e1 k t e2 -> H.
assert (G : PyDict.get (set_each (e1 ++ (k, t) :: e2) []) k = Some t)
  by now apply get_set_each_last.
split; [exact G|].
intros t' Hin. apply PyDictFacts.get_In in G.
eapply PyDictFacts.NoDup_keys_functional; eauto.
Qed.

End ReadingFacts.

(** ** The theorems on sample inputs *)

(** The claim C1 as first stated fails: after two saves and the deletion
    of the record with id 2, the next save assigns 2 again, which does not
    exceed the ids [1; 2] assigned before. *)
Lemma deleted_id_is_assigned_again :
  exists st t st',
    run_ops [OpSave sample_first; OpSave sample_second; OpDelete 2] sample_empty
      = ([1; 2], st) /\
    PyDict.contains (todos st) (KInt 2) = false /\
    save sample_first st = (Ok t, st') /\
    id t = 2 /\
    ~ Forall (fun z => z < id t) [1; 2].
Proof.
  do 3 eexists. split; [vm_compute; reflexivity|].
  split; [reflexivity|]. split; [vm_compute; reflexivity|].
  split; [reflexivity|].
  intro H. inversion H as [|? ? _ H']; subst.
  inversion H' as [|? ? L _]; subst. simpl in L. lia.
Qed.

Lemma save_id_exceeds_current_ids_witness :
  todos sample_empty = [] /\
  run_ops [OpSave sample_first; OpSave sample_second; OpDelete 1] sample_empty
    = ([1; 2], snd (delete 1 sample_two)) /\
  exists t st', save sample_first (snd (delete 1 sample_two)) = (Ok t, st') /\
                id t = 3.
Proof.
  split; [reflexivity|]. split; [reflexivity|].
  destruct (save_id_exceeds_current_ids
              [OpSave sample_first; OpSave sample_second; OpDelete 1]
              sample_empty (snd (delete 1 sample_two)) [1; 2] sample_first
              eq_refl eq_refl)
    as (n & Hn & _ & _ & _ & _ & _ & Hs & Hr).
  destruct (Hr eq_refl) as (t & st' & S). exists t, st'.
  split; [exact S|]. rewrite (Hs _ _ S).
  vm_compute in Hn. now injection Hn as <-.
Defined.

Lemma saves_from_empty_assign_1_to_N_witness :
  todos sample_empty = [] /\
  exists ts st,
    save_each [sample_first; sample_second; sample_first] sample_empty
      = (Ok ts, st) /\
    map id ts = [1; 2; 3].
Proof.
  split; [reflexivity|]. do 2 eexists. split; [vm_compute; reflexivity|].
  exact (proj1 (saves_from_empty_assign_1_to_N
                  [sample_first; sample_second; sample_first]
                  sample_empty _ _ eq_refl eq_refl)).
Defined.

Lemma file_reflects_memory_witness :
  mutate (Delete 1) sample_two = (Ok tt, snd (delete 1 sample_two)) /\
  disk (snd (delete 1 sample_two))
    = Document (VList [VDict [("text", VStr "Second"); ("done", VBool false);
                              ("id", VInt 2)]]).
Proof.
  split; [reflexivity|].
  exact (proj1 (file_reflects_memory (Delete 1) sample_two _ eq_refl)).
Defined.

Lemma update_missing_id_raises_witness :
  PyDict.contains (todos sample_two) (KInt 999) = false /\
  update (mkTodo "X" false 999) sample_two = (Raise ValueError, sample_two).
Proof.
  split; [reflexivity|].
  exact (proj1 (update_missing_id_raises sample_two (mkTodo "X" false 999)
                  eq_refl)).
Defined.

Lemma delete_removes_exactly_one_witness :
  delete 7 sample_two = (Raise ValueError, sample_two) /\
  exists st', delete 1 sample_two = (Ok tt, st') /\
              PyDict.get (todos st') (KInt 1) = None /\
              PyDict.get (todos st') (KInt 2) = PyDict.get (todos sample_two) (KInt 2).
Proof.
  split; [exact (delete_removes_exactly_one sample_two 7)|].
  destruct (delete_removes_exactly_one sample_two 1)
    as (st' & D & G & K & _).
  exists st'. split; [exact D|]. split; [exact G|].
  apply K. discriminate.
Defined.

(** The claim C6 as first stated fails: with the valid text "ab" and a
    [done] that is no boolean (the string "maybe", which Pydantic takes
    for a [bool] in no mode) the constructor raises [ValidationError]. *)
Lemma valid_text_with_bad_done_is_rejected :
  save_new strict_bool (VStr "ab") (Some (VStr "maybe")) sample_empty
    = (Raise ValidationError, sample_empty) /\
  ~ (String.length (PyStr.strip "ab") < 2)%nat.
Proof. split; [reflexivity|simpl; lia]. Qed.

Lemma save_rejects_short_text_witness :
  fst (save_new strict_bool (VStr " a ") None sample_two) = Raise ValidationError /\
  fst (save_new strict_bool (VInt 12) None sample_two) = Raise ValidationError /\
  fst (save_new strict_bool (VStr "ab") (Some (VInt 7)) sample_two)
    = Raise ValidationError /\
  (exists t st',
     save_new strict_bool (VStr "  ab  ") (Some (VBool true)) sample_two
       = (Ok t, st') /\ text t = "ab") /\
  save (mkTodoCreate "x" false) sample_two = (Raise ValidationError, sample_two).
Proof.
  split.
  { apply (proj1 (save_rejects_short_text strict_bool (VStr " a ") None
                    sample_first sample_two)).
    left. simpl. lia. }
  split.
  { apply (proj1 (save_rejects_short_text strict_bool (VInt 12) None
                    sample_first sample_two)). now left. }
  split.
  { apply (proj1 (save_rejects_short_text strict_bool (VStr "ab") (Some (VInt 7))
                    sample_first sample_two)). now right. }
  split.
  { apply (save_rejects_short_text strict_bool (VStr "  ab  ") (Some (VBool true))
             sample_first sample_two); [exists [1; 2]; reflexivity|discriminate]. }
  apply (save_rejects_short_text strict_bool (VStr "ab") None
           (mkTodoCreate "x" false) sample_two);
    [exists [1; 2]; reflexivity|vm_compute; lia].
Defined.


Lemma write_then_init_round_trip_witness :
  NoDup (PyDict.keys (todos sample_two)) /\
  exists st1 st2,
    _write_all (PyDict.values (todos sample_two)) sample_two = (Ok tt, st1) /\
    TodoDao_init strict_int strict_bool (filename st1) (disk st1) = Ok st2 /\
    todos st2 = todos sample_two.
Proof.
  assert (N : NoDup (PyDict.keys (todos sample_two))).
  { repeat constructor; simpl; intuition discriminate. }
  split; [exact N|]. eexists.
  destruct (write_then_init_round_trip strict_int strict_bool sample_two _ N
              ltac:(repeat constructor) eq_refl) as (st2 & I & T & _).
  exists st2. split; [reflexivity|]. split; [exact I|exact T].
Defined.

Lemma init_missing_or_malformed_file_witness :
  existsb unacceptable [sample_record 1 "ok"; sample_record 2 " x "] = true /\
  exists e,
    TodoDao_init strict_int strict_bool "todo_data.json"
      (Document (VList [sample_record 1 "ok"; sample_record 2 " x "]))
    = Raise e.
Proof.
  split; [reflexivity|].
  exact (proj2 (proj2 (init_missing_or_malformed_file strict_int strict_bool
                         "todo_data.json"))
           [sample_record 1 "ok"; sample_record 2 " x "] eq_refl).
Defined.

Lemma init_keeps_last_record_of_an_id_witness :
  exists st,
    TodoDao_init strict_int strict_bool "todo_data.json"
      (Document (VList [sample_record 1 "old"; sample_record 2 "other";
                        sample_record 1 "new"])) = Ok st /\
    PyDict.get (todos st) (KInt 1) = Some (mkTodo "new" false 1) /\
    List.length (todos st) = 2%nat.
Proof.
  destruct (init_keeps_last_record_of_an_id strict_int strict_bool
              "todo_data.json"
              [sample_record 1 "old"; sample_record 2 "other";
               sample_record 1 "new"]
              [(KInt 1, mkTodo "old" false 1); (KInt 2, mkTodo "other" false 2);
               (KInt 1, mkTodo "new" false 1)])
    as (st & I & _ & _ & L).
  { repeat constructor; eexists; repeat split. }
  exists st. split; [exact I|]. split.
  - apply (L [(KInt 1, mkTodo "old" false 1); (KInt 2, mkTodo "other" false 2)]
             (KInt 1) (mkTodo "new" false 1) []); [reflexivity|].
    simpl. tauto.
  - vm_compute in I. injection I as <-. reflexivity.
Defined.

(** ** More on the validator of [text] *)

Module PyStripFacts.
Import PyStr.

Lemma lstrip_split (s : string) :
  exists pre, s = (pre ++ lstrip s)%string /\ all_space pre = true.
Proof.
  induction s as [|c s (pre & E & A)]; [now exists EmptyString|].
  simpl. destruct (isspace c) eqn:C.
  - exists (String c pre). simpl. rewrite C, A. split; [now f_equal|reflexivity].
  - now exists EmptyString.
Qed.

Lemma rstrip_split (s : string) :
  exists post, s = (rstrip s ++ post)%string /\ all_space post = true.
Proof.
  induction s as [|c s (post & E & A)]; [now exists EmptyString|].
  simpl. destruct (isspace c && is_empty (rstrip s)) eqn:C.
  - apply andb_true_iff in C as [C1 C2].
    destruct (rstrip s); [|discriminate]. simpl in E. subst s.
    exists (String c post). simpl. now rewrite C1, A.
  - exists post. simpl. split; [now f_equal|exact A].
Qed.

Lemma first_char_lstrip (s : string) (c : ascii) :
  first_char (lstrip s) = Some c -> isspace c = false.
Proof.
  induction s as [|a s IH]; simpl; [discriminate|].
  destruct (isspace a) eqn:A; [exact IH|].
  simpl. intro H. now injection H as <-.
Qed.

Lemma last_char_rstrip (s : string) (c : ascii) :
  last_char (rstrip s) = Some c -> isspace c = false.
Proof.
  induction s as [|a s IH]; simpl; [discriminate|].
  destruct (isspace a && is_empty (rstrip s)) eqn:A; [discriminate|].
  simpl. destruct (rstrip s) as [|b r] eqn:R.
  - intro H. injection H as <-. simpl in A. now rewrite andb_true_r in A.
  - exact IH.
Qed.

Lemma first_char_strip (s : string) (c : ascii) :
  first_char (strip s) = Some c -> isspace c = false.
Proof.
  unfold strip. intro H.
  pose proof (PyStrFacts.lstrip_rstrip_fixed _ (PyStrFacts.lstrip_idem s)) as F.
  apply PyStrFacts.lstrip_fixed_cases in F as [F|(a & r & F & A)];
    rewrite F in H; simpl in H; [discriminate|].
  now injection H as <-.
Qed.

Lemma rstrip_all_space (s : string) :
  all_space s = true -> rstrip s = EmptyString.
Proof.
  induction s as [|c s IH]; simpl; [reflexivity|].
  intro H. apply andb_true_iff in H as [C A]. now rewrite (IH A), C.
Qed.

Lemma lstrip_all_space (s : string) :
  all_space s = true -> all_space (lstrip s) = true.
Proof.
  induction s as [|c s IH]; simpl; [reflexivity|].
  intro H. apply andb_true_iff in H as [C A]. rewrite C. now apply IH.
Qed.

Lemma strip_all_space (s : string) :
  all_space s = true -> strip s = EmptyString.
Proof.
  intro H. unfold strip. apply rstrip_all_space. now apply lstrip_all_space.
Qed.

End PyStripFacts.

(** X1.  A text that [validate_text] accepts comes back stripped: the
    result is the input without a whitespace-only prefix and suffix, it
    has at least [MIN_TEXT_LENGTH] characters, it neither starts nor ends
    with whitespace, and validating it again returns it unchanged. *)
Theorem validate_text_returns_trimmed (v : value) (u : string) :
  validate_text v = Ok u ->
  exists s pre post,
    v = VStr s /\ s = (pre ++ u ++ post)%string /\
    all_space pre = true /\ all_space post = true /\
    (MIN_TEXT_LENGTH <= String.length u)%nat /\
    (forall c, first_char u = Some c -> PyStr.isspace c = false) /\
    (forall c, last_char u = Some c -> PyStr.isspace c = false) /\
    validate_text (VStr u) = Ok u.
Proof.
  destruct v as [| | |s| |]; try discriminate.
  rewrite validate_text_str.
  destruct (Nat.ltb_spec (String.length (PyStr.strip s)) MIN_TEXT_LENGTH) as [L|L];
    [discriminate|].
  intro H. injection H as <-.
  destruct (PyStripFacts.lstrip_split s) as (pre & E1 & A1).
  destruct (PyStripFacts.rstrip_split (PyStr.lstrip s)) as (post & E2 & A2).
  exists s, pre, post. split; [reflexivity|].
  split; [unfold PyStr.strip; now rewrite <- E2|].
  split; [exact A1|]. split; [exact A2|]. split; [exact L|].
  split; [apply PyStripFacts.first_char_strip|].
  split; [apply PyStripFacts.last_char_rstrip|].
  rewrite validate_text_str, PyStrFacts.strip_idem.
  destruct (Nat.ltb_spec (String.length (PyStr.strip s)) MIN_TEXT_LENGTH);
    [lia|reflexivity].
Qed.

(** X2.  A blank text is rejected whatever its length: on a string of
    whitespace only the validator raises [ValueError], and both model
    constructors raise [ValidationError]. *)
Theorem blank_text_is_rejected
  (lax_bool : value -> option bool) (s : string) (i : Z)
  (done0 : option value) (b : bool) :
  all_space s = true ->
  validate_text (VStr s) = Raise ValueError /\
  TodoCreate_new lax_bool (VStr s) done0 = Raise ValidationError /\
  Todo_new i s b = Raise ValidationError.
Proof.
  intro A. unfold TodoCreate_new, Todo_new.
  rewrite text_field_str, validate_text_str, (PyStripFacts.strip_all_space s A).
  now repeat split.
Qed.

(** ** More on the store *)

Lemma In_setitem {A} (d : PyDict.t A) (k : key) (v : A) (kv : key * A) :
  In kv (PyDict.setitem d k v) -> In kv d \/ kv = (k, v).
Proof.
  induction d as [|[k0 v0] d IH]; simpl.
  - intros [<-|[]]. now right.
  - destruct (PyDict.key_eqb k k0) eqn:E; simpl.
    + apply PyDictFacts.key_eqb_eq in E. subst k0.
      intros [<-|H]; [now right|now left; right].
    + intros [<-|H]; [now left; left|].
      destruct (IH H) as [H'|H']; [now left; right|now right].
Qed.

Lemma Forall_setitem {A} (P : key * A -> Prop) (d : PyDict.t A) (k : key) (v : A) :
  Forall P d -> P (k, v) -> Forall P (PyDict.setitem d k v).
Proof.
  intros F Pk. apply Forall_forall. intros kv Hin.
  destruct (In_setitem _ _ _ _ Hin) as [H| ->]; [|exact Pk].
  rewrite Forall_forall in F. now apply F.
Qed.

Lemma Forall_delitem {A} (P : key * A -> Prop) (d : PyDict.t A) (k : key) :
  Forall P d -> Forall P (PyDict.delitem d k).
Proof.
  intro F. apply Forall_forall. intros kv Hin.
  apply PyDictFacts.In_delitem in Hin as [Hin _].
  rewrite Forall_forall in F. now apply F.
Qed.

Lemma In_get {A} (d : PyDict.t A) (k : key) (v : A) :
  NoDup (PyDict.keys d) -> In (k, v) d -> PyDict.get d k = Some v.
Proof.
  intros N Hin. destruct (PyDict.get d k) as [v'|] eqn:G.
  - apply PyDictFacts.get_In in G. f_equal.
    exact (PyDictFacts.NoDup_keys_functional d k v' v N G Hin).
  - apply PyDictFacts.get_None_iff in G. exfalso. apply G.
    apply in_map_iff. now exists (k, v).
Qed.

Lemma contains_get {A} (d : PyDict.t A) (k : key) :
  PyDict.contains d k = true <-> PyDict.get d k <> None.
Proof.
  unfold PyDict.contains. destruct (PyDict.get d k); split; congruence.
Qed.

(** What a mutating call leaves behind: the state it found, after an
    exception, or a new mapping together with its file. *)
Lemma mutate_effect (m : mutation) (st : state) :
  (snd (mutate m st) = st /\ is_ok (fst (mutate m st)) = false) \/
  (fst (mutate m st) = Ok tt /\
   exists d, snd (mutate m st) = committed st d /\
     match m with
     | Save c => exists t, save c st = (Ok t, committed st d) /\
                           d = PyDict.setitem (todos st) (KInt (id t)) t /\
                           PyDict.get (todos st) (KInt (id t)) = None
     | Update t => PyDict.contains (todos st) (KInt (id t)) = true /\
                   d = PyDict.setitem (todos st) (KInt (id t)) t
     | Delete i => PyDict.contains (todos st) (KInt i) = true /\
                   d = PyDict.delitem (todos st) (KInt i)
     end).
Proof.
  destruct m as [c|t|i]; simpl; unfold bind.
  - destruct (save c st) as [[t|e] st'] eqn:S; simpl.
    + right. split; [reflexivity|].
      destruct (save_ok _ _ _ _ S) as (zs & _ & _ & _ & _ & G & ->).
      eexists. split; [reflexivity|]. exists t.
      rewrite (PyDictFacts.setitem_new _ _ _ G). now repeat split.
    + left. rewrite save_run in S.
      destruct (_next_id st) as [[n|e'] s]; [|now injection S as _ <-].
      destruct (Todo_new n (tc_text c) (tc_done c)); [discriminate|].
      now injection S as _ <-.
  - rewrite update_run.
    destruct (PyDict.contains (todos st) (KInt (id t))) eqn:C; simpl.
    + right. split; [reflexivity|]. eexists. now repeat split.
    + now left.
  - rewrite delete_run.
    destruct (PyDict.contains (todos st) (KInt i)) eqn:C; simpl.
    + right. split; [reflexivity|]. eexists. now repeat split.
    + now left.
Qed.

(** X3.  [update] with a record whose id is a key returns that record;
    the keys and their order stay as they were, the id is mapped to the
    new record, every other entry is untouched, and the file is rewritten
    from the new mapping. *)
Theorem update_replaces_in_place (st : state) (t : Todo) :
  PyDict.contains (todos st) (KInt (id t)) = true ->
  exists st',
    update t st = (Ok t, st') /\
    PyDict.keys (todos st') = PyDict.keys (todos st) /\
    PyDict.get (todos st') (KInt (id t)) = Some t /\
    (forall k, k <> KInt (id t) ->
       PyDict.get (todos st') k = PyDict.get (todos st) k) /\
    disk st' = Document (VList (map Todo_model_dump (PyDict.values (todos st')))) /\
    filename st' = filename st /\ warnings st' = warnings st.
Proof.
  intro C. rewrite update_run, C. eexists. split; [reflexivity|]. simpl.
  split; [apply PyDictFacts.keys_setitem_old; now apply contains_get|].
  split; [now rewrite PyDictFacts.get_setitem, PyDictFacts.key_eqb_refl|].
  split; [|now repeat split].
  intros k Hne. rewrite PyDictFacts.get_setitem.
  apply PyDictFacts.key_eqb_neq in Hne. now rewrite Hne.
Qed.

(** X4.  In a mapping with distinct keys whose records are stored under
    their own ids, [get] and [get_all] agree: [get(i)] returns a record
    exactly when [get_all] lists that record and its id is [i]; neither
    call changes the state. *)
Theorem get_agrees_with_get_all (st : state) (i : Z) (t : Todo) :
  NoDup (PyDict.keys (todos st)) ->
  own_ids (todos st) ->
  exists l o,
    get_all st = (Ok l, st) /\ get i st = (Ok o, st) /\
    (o = Some t <-> In t l /\ id t = i).
Proof.
  intros N O. exists (PyDict.values (todos st)), (PyDict.get (todos st) (KInt i)).
  split; [reflexivity|]. split; [reflexivity|].
  unfold own_ids in O. rewrite Forall_forall in O. split.
  - intro G. apply PyDictFacts.get_In in G. pose proof (O _ G) as E.
    simpl in E. injection E as ->. split; [|reflexivity].
    unfold PyDict.values. apply in_map_iff. now exists (KInt (id t), t).
  - intros [Hin <-]. unfold PyDict.values in Hin.
    apply in_map_iff in Hin as ([k t'] & E & Hin). simpl in E. subst t'.
    pose proof (O _ Hin) as E. simpl in E. subst k. now apply In_get.
Qed.

Lemma own_id_positive (d : PyDict.t Todo) (z : Z) :
  own_ids d -> Forall (fun kt => 1 <= id (snd kt)) d ->
  In (KInt z) (PyDict.keys d) -> 1 <= z.
Proof.
  intros O P Hin. apply in_map_iff in Hin as ([k v] & E & Hin). simpl in E.
  subst k. unfold own_ids in O. rewrite Forall_forall in O, P.
  pose proof (O _ Hin) as E. pose proof (P _ Hin) as L. simpl in *.
  injection E as ->. exact L.
Qed.

Lemma mutate_keeps_ids (m : mutation) (st : state) :
  NoDup (PyDict.keys (todos st)) -> own_ids (todos st) ->
  Forall (fun kt => 1 <= id (snd kt)) (todos st) ->
  NoDup (PyDict.keys (todos (snd (mutate m st)))) /\
  own_ids (todos (snd (mutate m st))) /\
  Forall (fun kt => 1 <= id (snd kt)) (todos (snd (mutate m st))).
Proof.
  intros N O P.
  destruct (mutate_effect m st) as [[-> _]|(_ & d & -> & E)]; [now repeat split|].
  cbn [todos committed]. destruct m as [c|t|i].
  - destruct E as (t & S & -> & G).
    split; [now apply PyDictFacts.NoDup_keys_setitem|].
    split; [now apply Forall_setitem|].
    apply Forall_setitem; [exact P|]. cbn [snd].
    destruct (save_ok _ _ _ _ S) as (zs & Hk & Hlt & Hn & _).
    destruct zs as [|z zs].
    + destruct (next_id_ok _ _ _ Hn) as (_ & zs' & Hk' & _ & He).
      rewrite Hk in Hk'. destruct zs'; [|discriminate]. rewrite He; [lia|reflexivity].
    + assert (1 <= z).
      { apply (own_id_positive (todos st)); try assumption.
        rewrite Hk. now left. }
      inversion Hlt; subst. lia.
  - destruct E as (C & ->).
    split; [now apply PyDictFacts.NoDup_keys_setitem|].
    split; [now apply Forall_setitem|].
    apply Forall_setitem; [exact P|]. cbn [snd].
    apply (own_id_positive (todos st)); try assumption.
    unfold PyDict.contains in C.
    destruct (PyDict.get (todos st) (KInt (id t))) as [v|] eqn:G; [|discriminate].
    apply PyDictFacts.get_In in G. apply in_map_iff. now exists (KInt (id t), v).
  - destruct E as (_ & ->).
    split; [now apply PyDictFacts.NoDup_keys_delitem|].
    split; now apply Forall_delitem.
Qed.

(** X5.  The three mutating calls keep the ids in order, whether they
    return or raise: starting from a mapping with distinct keys, each
    record under its own id and every id at least 1 (an empty mapping in
    particular), any sequence of [save], [update] and [delete] calls
    leads to such a mapping again, and the ids of the records that
    [get_all] returns are pairwise distinct. *)
Theorem mutations_keep_ids_distinct (ms : list mutation) (st : state) :
  NoDup (PyDict.keys (todos st)) ->
  own_ids (todos st) ->
  Forall (fun kt => 1 <= id (snd kt)) (todos st) ->
  let st' := run_mutations ms st in
  NoDup (PyDict.keys (todos st')) /\
  own_ids (todos st') /\
  Forall (fun kt => 1 <= id (snd kt)) (todos st') /\
  exists l, get_all st' = (Ok l, st') /\ NoDup (map id l) /\
            Forall (fun t => 1 <= id t) l.
Proof.
  revert st. induction ms as [|m ms IH]; intros st N O P; simpl.
  - split; [exact N|]. split; [exact O|]. split; [exact P|].
    exists (PyDict.values (todos st)). split; [reflexivity|]. split.
    + assert (E : map KInt (map id (PyDict.values (todos st)))
                  = PyDict.keys (todos st)).
      { unfold PyDict.values, PyDict.keys. rewrite !map_map.
        apply map_ext_in. intros kt Hin. unfold own_ids in O.
        rewrite Forall_forall in O. now rewrite (O _ Hin). }
      rewrite <- E in N. now apply NoDup_map_inv in N.
    + unfold PyDict.values. apply Forall_map. exact P.
  - destruct (mutate_keeps_ids m st N O P) as (N' & O' & P').
    exact (IH _ N' O' P').
Qed.

(** When [max(keys) + 1] meets a key that is not an integer, it raises
    [TypeError]. *)
Lemma max_from_other_key (l : list key) :
  forall m, (exists k, In k (m :: l) /\ forall z, k <> KInt z) ->
    PyDict.max_from m l = Raise TypeError \/
    exists r, PyDict.max_from m l = Ok r /\ forall z, r <> KInt z.
Proof.
  induction l as [|x l IH]; intros m (k & Hin & Hk).
  - destruct Hin as [<-|[]]. right. now exists m.
  - simpl. destruct x as [x|x|], m as [y|y|]; simpl; try (now left).
    + assert (Hl : In k l).
      { destruct Hin as [<-|[<-|H]]; [now elim (Hk y)|now elim (Hk x)|exact H]. }
      destruct (Z.ltb y x); apply IH; exists k; (split; [now right|exact Hk]).
    + destruct (String.ltb y x); apply IH.
      * exists (KStr x). split; [now left|discriminate].
      * exists (KStr y). split; [now left|discriminate].
Qed.

(** X6.  A key that is a string stops [save]: when the mapping has a
    string among its keys (a store read from a file whose ids were
    strings that the model coerced), [_next_id] raises [TypeError], so
    [save] raises it too, whatever the text and however the write would
    end, and changes nothing. *)
Theorem save_raises_on_string_key
  (io : write_outcome) (c : TodoCreate) (st : state) (s : string) :
  In (KStr s) (PyDict.keys (todos st)) ->
  _next_id st = (Raise TypeError, st) /\
  save c st = (Raise TypeError, st) /\
  save_io io c st = (Raise TypeError, st).
Proof.
  intro Hin.
  assert (E : _next_id st = (Raise TypeError, st)).
  { unfold _next_id, bind, gets, lift, ret.
    destruct (todos st) as [|[k0 v0] d]; [destruct Hin|]. simpl.
    destruct (max_from_other_key (PyDict.keys d) k0) as [->|(r & -> & Hr)].
    - exists (KStr s). split; [exact Hin|discriminate].
    - reflexivity.
    - destruct r; [now elim (Hr z)|reflexivity|reflexivity]. }
  split; [exact E|]. split; [now rewrite save_run, E|].
  unfold save_io, bind. now rewrite E.
Qed.

(** ** Opening a store on a file *)

Section ReopenFacts.

Variable lax_int : value -> option Z.
Variable lax_bool : value -> option bool.

Lemma init_written (fname : string) (d : PyDict.t Todo) :
  NoDup (PyDict.keys d) -> own_ids d -> valid_texts d ->
  TodoDao_init lax_int lax_bool fname (written d)
  = Ok (mkState fname d (written d) []).
Proof.
  intros N O V. unfold written. rewrite init_document. cbn [py_iter].
  rewrite (read_items_accepted lax_int lax_bool _ d).
  - now rewrite set_each_fresh by exact N.
  - unfold PyDict.values. rewrite map_map. clear N.
    induction d as [|[k t] d IH]; simpl; constructor.
    + inversion O; inversion V; subst. now apply reads_as_dump.
    + inversion O; inversion V; subst. now apply IH.
Qed.

Lemma validate_ok_valid_text (v : value) (t : Todo) :
  Todo_model_validate lax_int lax_bool v = Ok t -> valid_text (text t) = true.
Proof.
  unfold Todo_model_validate. destruct v as [| | | | |d]; try discriminate.
  destruct (dict_get d "text") as [x|]; [|discriminate].
  destruct (done_field lax_bool (dict_get d "done")) as [b|]; [|discriminate].
  destruct (dict_get d "id") as [i|]; [|discriminate].
  destruct (text_field x) as [u|] eqn:T; [|discriminate].
  destruct (int_field lax_int i); [|discriminate].
  intro H. injection H as <-. simpl. exact (text_field_ok_valid _ _ T).
Qed.

Lemma read_items_ok (items : list value) :
  forall d d', read_items lax_int lax_bool items d = Ok d' ->
    exists es, Forall2 (reads_as lax_int lax_bool) items es /\ d' = set_each es d.
Proof.
  induction items as [|v items IH]; intros d d' H; simpl in H.
  - injection H as <-. now exists [].
  - destruct (py_getitem v "id") as [r|] eqn:G; [|discriminate].
    destruct (Todo_model_validate lax_int lax_bool v) as [t|] eqn:V;
      [|discriminate].
    destruct (PyDict.key_of r) as [k|] eqn:K; [|discriminate].
    destruct (IH _ _ H) as (es & F & ->).
    exists ((k, t) :: es). split; [|reflexivity].
    constructor; [|exact F]. now exists r.
Qed.

(** X7.  A store that the constructor returns holds distinct keys and
    only records whose text the validator leaves as it is; it has at most
    one record per element of the file, the file is as it was, and a
    warning is logged only when the file was missing. *)
Theorem init_returns_validated_records (fname : string) (f : file) (st : state) :
  TodoDao_init lax_int lax_bool fname f = Ok st ->
  filename st = fname /\ disk st = f /\
  NoDup (PyDict.keys (todos st)) /\
  valid_texts (todos st) /\
  (forall items, f = Document (VList items) ->
     (List.length (todos st) <= List.length items)%nat) /\
  (warnings st <> [] -> f = Absent /\ todos st = []).
Proof.
  destruct f as [| |doc].
  - intro H. injection H as <-. simpl.
    repeat split; try constructor; try discriminate.
  - discriminate.
  - rewrite init_document.
    destruct (py_iter doc) as [items|] eqn:I; [|discriminate].
    destruct (read_items lax_int lax_bool items []) as [d|] eqn:R; [|discriminate].
    intro H. injection H as <-. simpl.
    destruct (read_items_ok _ _ _ R) as (es & F & ->).
    split; [reflexivity|]. split; [reflexivity|].
    split; [apply NoDup_keys_set_each; constructor|].
    assert (V : valid_texts es).
    { clear R I. induction F as [|v [k t] items es (r & _ & _ & Hv) _ IH];
        [constructor|]. constructor; [|exact IH].
      simpl in *. exact (validate_ok_valid_text _ _ Hv). }
    assert (G : forall es' d, valid_texts d -> valid_texts es' ->
                  valid_texts (set_each es' d) /\
                  (List.length (set_each es' d)
                   <= List.length d + List.length es')%nat).
    { clear. induction es' as [|[k t] es' IH]; intros d Vd Ve.
      - split; [exact Vd|simpl; lia].
      - inversion Ve; subst.
        destruct (IH (PyDict.setitem d k t)) as [I1 I2];
          [now apply Forall_setitem|assumption|].
        change (set_each ((k, t) :: es') d)
          with (set_each es' (PyDict.setitem d k t)).
        split; [exact I1|].
        assert (L : (List.length (PyDict.setitem d k t) <= S (List.length d))%nat).
        { clear. induction d as [|[k0 v0] d IHd]; simpl; [lia|].
          destruct (PyDict.key_eqb k k0); simpl; lia. }
        cbn [List.length]. lia. }
    destruct (G es [] ltac:(constructor) V) as [G1 G2].
    split; [exact G1|]. split.
    + intros items' E. injection E as ->. simpl in I. injection I as <-.
      rewrite <- (Forall2_length F) in G2. exact G2.
    + intro W. now elim W.
Qed.

(** X8.  A file whose JSON document is not an array: an empty object
    and an empty string give an empty store, without a warning; every
    other document makes the constructor raise [TypeError]. *)
Theorem init_on_non_array_document (fname : string) (doc : value) :
  (forall l, doc <> VList l) ->
  TodoDao_init lax_int lax_bool fname (Document doc) =
  match doc with
  | VDict [] | VStr EmptyString => Ok (mkState fname [] (Document doc) [])
  | _ => Raise TypeError
  end.
Proof.
  intro H. rewrite init_document.
  destruct doc as [| | |s|l|d]; try reflexivity.
  - now destruct s.
  - now elim (H l).
  - now destruct d as [|[k v] d].
Qed.

(** X9.  [update] does not validate the record it is given: with a
    stored id and a text shorter than [MIN_TEXT_LENGTH] once stripped it
    returns and rewrites the file, and from then on the constructor
    raises on that file. *)
Theorem unvalidated_update_blocks_reopening (fname : string) (st : state) (t : Todo) :
  PyDict.contains (todos st) (KInt (id t)) = true ->
  (String.length (PyStr.strip (text t)) < MIN_TEXT_LENGTH)%nat ->
  exists st',
    update t st = (Ok t, st') /\
    exists e, TodoDao_init lax_int lax_bool fname (disk st') = Raise e.
Proof.
  intros C L. rewrite update_run, C. eexists. split; [reflexivity|].
  cbn [disk committed]. unfold written. rewrite init_document. cbn [py_iter].
  assert (U : existsb unacceptable
                (map Todo_model_dump
                   (PyDict.values (PyDict.setitem (todos st) (KInt (id t)) t)))
              = true).
  { apply existsb_exists. exists (Todo_model_dump t). split.
    - apply in_map. unfold PyDict.values. apply in_map_iff.
      exists (KInt (id t), t). split; [reflexivity|].
      apply PyDictFacts.get_In.
      now rewrite PyDictFacts.get_setitem, PyDictFacts.key_eqb_refl.
    - unfold unacceptable, Todo_model_dump.
      change (dict_get _ "id") with (Some (VInt (id t))).
      change (dict_get _ "text") with (Some (VStr (text t))).
      cbv beta iota. now apply Nat.ltb_lt. }
  pose proof (read_items_unacceptable lax_int lax_bool _ U []) as F.
  destruct (read_items lax_int lax_bool _ []); [discriminate|]. now eexists.
Qed.

Lemma init_of_synced (st : state) :
  NoDup (PyDict.keys (todos st)) -> own_ids (todos st) -> valid_texts (todos st) ->
  in_sync st ->
  exists st2,
    TodoDao_init lax_int lax_bool (filename st) (disk st) = Ok st2 /\
    todos st2 = todos st.
Proof.
  intros N O V [[E1 E2]| ->].
  - rewrite E2, E1. now eexists.
  - rewrite init_written by assumption. now eexists.
Qed.

End ReopenFacts.

(** ** Writes that fail *)

Lemma mutate_io_written (m : mutation) (st : state) :
  mutate_io Written m st = mutate m st.
Proof. now destruct m. Qed.

Lemma todos_stored (io : write_outcome) (st : state) (d : PyDict.t Todo) :
  todos (stored io st d) = d /\ filename (stored io st d) = filename st /\
  warnings (stored io st d) = warnings st.
Proof. now destruct io. Qed.

Lemma save_io_run (io : write_outcome) (c : TodoCreate) (st : state) :
  save_io io c st =
  match _next_id st with
  | (Ok n, _) =>
      match Todo_new n (tc_text c) (tc_done c) with
      | Ok t => (match io with Written => Ok t | _ => Raise OSError end,
                 stored io st (PyDict.setitem (todos st) (KInt n) t))
      | Raise e => (Raise e, st)
      end
  | (Raise e, _) => (Raise e, st)
  end.
Proof.
  unfold save_io, bind.
  destruct (_next_id st) as [[n|e] st'] eqn:E;
    pose proof (next_id_pure st) as P; rewrite E in P; simpl in P; subst st';
    [|reflexivity].
  unfold lift. destruct (Todo_new n (tc_text c) (tc_done c)); [|reflexivity].
  now destruct io.
Qed.

Lemma update_io_run (io : write_outcome) (t : Todo) (st : state) :
  update_io io t st =
  if PyDict.contains (todos st) (KInt (id t))
  then (match io with Written => Ok t | _ => Raise OSError end,
        stored io st (PyDict.setitem (todos st) (KInt (id t)) t))
  else (Raise ValueError, st).
Proof.
  unfold update_io, bind, gets.
  destruct (PyDict.contains (todos st) (KInt (id t))); [|reflexivity].
  now destruct io.
Qed.

Lemma delete_io_run (io : write_outcome) (i : Z) (st : state) :
  delete_io io i st =
  if PyDict.contains (todos st) (KInt i)
  then (match io with Written => Ok tt | _ => Raise OSError end,
        stored io st (PyDict.delitem (todos st) (KInt i)))
  else (Raise ValueError, st).
Proof.
  unfold delete_io, bind, gets.
  destruct (PyDict.contains (todos st) (KInt i)); [|reflexivity].
  now destruct io.
Qed.

Lemma Todo_new_raises (n : Z) (s : string) (b : bool) (e : exn) :
  Todo_new n s b = Raise e -> e = ValidationError.
Proof.
  unfold Todo_new. rewrite text_field_str.
  destruct (String.length (PyStr.strip s) <? MIN_TEXT_LENGTH)%nat;
    [|discriminate].
  intro H. now injection H as <-.
Qed.

(** A mutating call either raises before it touches the mapping, or it
    changes the mapping as the call with a successful write does and
    then ends as its write ends. *)
Lemma mutate_io_effect (io : write_outcome) (m : mutation) (st : state) :
  (snd (mutate_io io m st) = st /\ snd (mutate m st) = st /\
   is_ok (fst (mutate_io io m st)) = false /\
   fst (mutate_io io m st) <> Raise OSError) \/
  (exists d, snd (mutate_io io m st) = stored io st d /\
             mutate m st = (Ok tt, committed st d) /\
             fst (mutate_io io m st)
             = match io with Written => Ok tt | _ => Raise OSError end).
Proof.
  destruct m as [c|t|i]; cbn [mutate_io mutate]; unfold bind.
  - rewrite save_io_run, save_run.
    destruct (_next_id st) as [[n|e] s1] eqn:E.
    + destruct (Todo_new n (tc_text c) (tc_done c)) as [t|e] eqn:N.
      * right. eexists. split; [now destruct io|]. split; [reflexivity|].
        now destruct io.
      * left. apply Todo_new_raises in N. subst e. now repeat split.
    + left. apply next_id_raises_TypeError in E. subst e. now repeat split.
  - rewrite update_io_run, update_run.
    destruct (PyDict.contains (todos st) (KInt (id t))).
    + right. eexists. split; [now destruct io|]. split; [reflexivity|].
      now destruct io.
    + left. now repeat split.
  - rewrite delete_io_run, delete_run.
    destruct (PyDict.contains (todos st) (KInt i)).
    + right. eexists. split; [now destruct io|]. split; [reflexivity|].
      now destruct io.
    + left. now repeat split.
Qed.

Lemma mutate_keeps_valid (m : mutation) (st : state) :
  (forall t, m = Update t -> valid_text (text t) = true) ->
  NoDup (PyDict.keys (todos st)) -> own_ids (todos st) -> valid_texts (todos st) ->
  NoDup (PyDict.keys (todos (snd (mutate m st)))) /\
  own_ids (todos (snd (mutate m st))) /\
  valid_texts (todos (snd (mutate m st))).
Proof.
  intros Hm N O V.
  destruct (mutate_effect m st) as [[-> _]|(_ & d & -> & E)]; [now repeat split|].
  cbn [todos committed]. destruct m as [c|t|i].
  - destruct E as (t & Sv & -> & G).
    destruct (save_ok _ _ _ _ Sv) as (_ & _ & _ & _ & Hn & _).
    apply Todo_new_id in Hn as (_ & _ & _ & Hv).
    split; [now apply PyDictFacts.NoDup_keys_setitem|].
    split; now apply Forall_setitem.
  - destruct E as (_ & ->).
    split; [now apply PyDictFacts.NoDup_keys_setitem|].
    split; apply Forall_setitem; try assumption; try reflexivity.
    now apply Hm.
  - destruct E as (_ & ->).
    split; [now apply PyDictFacts.NoDup_keys_delitem|].
    split; now apply Forall_delitem.
Qed.

Lemma mutate_io_keeps (io : write_outcome) (m : mutation) (st : state) :
  (forall t, m = Update t -> valid_text (text t) = true) ->
  NoDup (PyDict.keys (todos st)) -> own_ids (todos st) -> valid_texts (todos st) ->
  filename (snd (mutate_io io m st)) = filename st /\
  NoDup (PyDict.keys (todos (snd (mutate_io io m st)))) /\
  own_ids (todos (snd (mutate_io io m st))) /\
  valid_texts (todos (snd (mutate_io io m st))) /\
  (io = Written -> in_sync st -> in_sync (snd (mutate_io io m st))) /\
  (io = Written -> is_ok (fst (mutate_io io m st)) = true ->
   disk (snd (mutate_io io m st)) = written (todos (snd (mutate_io io m st)))).
Proof.
  intros Hm N O V.
  destruct (mutate_keeps_valid m st Hm N O V) as (N' & O' & V').
  destruct (mutate_io_effect io m st) as [(-> & _ & F & _)|(d & -> & E & _)].
  - repeat split; try assumption; [now intros _ H|].
    intros _ H. rewrite F in H. discriminate.
  - rewrite E in N', O', V'. cbn [snd todos committed] in N', O', V'.
    destruct (todos_stored io st d) as (-> & -> & _).
    repeat split; try assumption.
    + intros -> _. right. reflexivity.
    + now intros -> _.
Qed.

Lemma run_io_keeps (calls : list (mutation * write_outcome)) :
  forall st,
    Forall (fun c => forall t, fst c = Update t -> valid_text (text t) = true)
      calls ->
    NoDup (PyDict.keys (todos st)) -> own_ids (todos st) ->
    valid_texts (todos st) ->
    filename (run_io calls st) = filename st /\
    NoDup (PyDict.keys (todos (run_io calls st))) /\
    own_ids (todos (run_io calls st)) /\
    valid_texts (todos (run_io calls st)) /\
    (Forall (fun c => snd c = Written) calls -> in_sync st ->
     in_sync (run_io calls st)).
Proof.
  induction calls as [|[m io] calls IH]; intros st F N O V; cbn [run_io].
  - now repeat split.
  - inversion F as [|? ? Hm F']; subst. cbn [fst] in Hm.
    destruct (mutate_io_keeps io m st Hm N O V) as (Hf & N' & O' & V' & Sy & _).
    destruct (IH _ F' N' O' V') as (Hf' & N2 & O2 & V2 & Sy').
    split; [congruence|]. repeat split; try assumption.
    intros W D. inversion W as [|? ? Hw W']; subst. cbn [snd] in Hw.
    apply Sy'; [exact W'|]. now apply Sy.
Qed.


Lemma get_todo_run (i : Z) (st : state) :
  get_todo i st =
  match PyDict.get (todos st) (KInt i) with
  | Some t => (Returned t, st)
  | None => (HTTPException 404 "Todo not found", st)
  end.
Proof.
  unfold get_todo, hbind, call, get, bind, gets, ret. simpl.
  now destruct (PyDict.get (todos st) (KInt i)).
Qed.

Lemma update_todo_run (i : Z) (c : TodoCreate) (st : state) :
  update_todo i c st =
  match PyDict.get (todos st) (KInt i) with
  | None => (HTTPException 404 "Todo not found", st)
  | Some _ =>
      match Todo_new i (tc_text c) (tc_done c) with
      | Ok t => (Returned t, committed st (PyDict.setitem (todos st) (KInt i) t))
      | Raise e => (Unhandled e, st)
      end
  end.
Proof.
  unfold update_todo, hbind, call, get, bind, gets, ret, lift. simpl.
  destruct (PyDict.get (todos st) (KInt i)) as [v|] eqn:G; [|reflexivity].
  destruct (Todo_new i (tc_text c) (tc_done c)) as [t|e] eqn:N; [|reflexivity].
  destruct (Todo_new_id _ _ _ _ N) as (Hid & _).
  rewrite update_run, Hid. unfold PyDict.contains. now rewrite G.
Qed.

Lemma create_todo_io_run
  (io : write_outcome) (c : TodoCreate) (response : Response) (st : state) :
  create_todo_io io c response st =
  match save_io io c st with
  | (Ok t, st') =>
      (Returned (t, response ++ [("Location", ("/todos/" ++ py_str (id t))%string)]),
       st')
  | (Raise e, st') => (Unhandled e, st')
  end.
Proof.
  unfold create_todo_io, hbind, call, hret, set_header.
  now destruct (save_io io c st) as [[t|e] st'].
Qed.

Lemma update_todo_io_run
  (io : write_outcome) (i : Z) (c : TodoCreate) (st : state) :
  update_todo_io io i c st =
  match PyDict.get (todos st) (KInt i) with
  | None => (HTTPException 404 "Todo not found", st)
  | Some _ =>
      match Todo_new i (tc_text c) (tc_done c) with
      | Ok t => (match io with Written => Returned t | _ => Unhandled OSError end,
                 stored io st (PyDict.setitem (todos st) (KInt i) t))
      | Raise e => (Unhandled e, st)
      end
  end.
Proof.
  unfold update_todo_io, hbind, call, get, bind, gets, ret, lift. simpl.
  destruct (PyDict.get (todos st) (KInt i)) as [v|] eqn:G; [|reflexivity].
  destruct (Todo_new i (tc_text c) (tc_done c)) as [t|e] eqn:N; [|reflexivity].
  destruct (Todo_new_id _ _ _ _ N) as (Hid & _).
  rewrite update_io_run, Hid. unfold PyDict.contains. rewrite G.
  now destruct io.
Qed.

(** How a request changes the store: not at all; or a [POST] has put a
    new record last in the mapping, as [save] does; or a [PUT] has
    replaced a stored record by one that went through the validator.  In
    the last two cases the write was reached and ended as [io]. *)
Lemma handle_effect (io : write_outcome) (r : request) (st : state) :
  (snd (handle io r st) = st /\ created_ids [(r, fst (handle io r st))] = []) \/
  (exists c t, r = POST_todos c /\
     save c st = (Ok t, committed st (todos st ++ [(KInt (id t), t)])) /\
     snd (handle io r st) = stored io st (todos st ++ [(KInt (id t), t)]) /\
     created_ids [(r, fst (handle io r st))]
     = match io with Written => [id t] | _ => [] end) \/
  (exists i c t, r = PUT_todo i c /\
     valid_text (text t) = true /\
     update t st
     = (Ok t, committed st (PyDict.setitem (todos st) (KInt (id t)) t)) /\
     snd (handle io r st)
     = stored io st (PyDict.setitem (todos st) (KInt (id t)) t) /\
     created_ids [(r, fst (handle io r st))] = []).
Proof.
  destruct r as [|c|i|i c|i| |i]; try (left; split; reflexivity).
  - unfold handle, hbind. rewrite create_todo_io_run, save_io_run.
    destruct (save c st) as [[t|e] st'] eqn:Sv.
    + destruct (save_ok _ _ _ _ Sv) as (_ & _ & _ & Hn & N & G & ->).
      rewrite Hn, N, (PyDictFacts.setitem_new _ _ _ G).
      right. left. exists c, t. split; [reflexivity|]. split; [exact Sv|].
      now destruct io.
    + left. rewrite save_run in Sv.
      destruct (_next_id st) as [[n|e'] s1]; [|now split].
      destruct (Todo_new n (tc_text c) (tc_done c)); [discriminate|now split].
  - left. unfold handle, hbind. rewrite get_todo_run.
    now destruct (PyDict.get (todos st) (KInt i)).
  - unfold handle, hbind. rewrite update_todo_io_run.
    destruct (PyDict.get (todos st) (KInt i)) as [v|] eqn:G;
      [|left; now split].
    destruct (Todo_new i (tc_text c) (tc_done c)) as [t|e] eqn:N;
      [|left; now split].
    right. right. exists i, c, t.
    destruct (Todo_new_id _ _ _ _ N) as (Hid & _ & _ & V).
    split; [reflexivity|]. split; [exact V|].
    rewrite update_run, Hid. unfold PyDict.contains. rewrite G.
    split; [reflexivity|]. now destruct io.
Qed.

(** X11.  [PUT /todos/{id}]: for an id that is not stored the handler
    raises [HTTPException] 404 and the store is untouched, so the
    [ValueError] of [dao.update] is never reached and no record is
    created.  For a stored id the record is rebuilt from the path id and
    the body: a text shorter than [MIN_TEXT_LENGTH] once stripped passes
    [ValidationError] through with the store untouched; otherwise the
    record with the stripped text replaces the stored one in place and a
    following [GET] of the id returns it. *)
Theorem update_todo_contract (i : Z) (c : TodoCreate) (st : state) :
  (PyDict.contains (todos st) (KInt i) = false ->
   update_todo i c st = (HTTPException 404 "Todo not found", st)) /\
  (PyDict.contains (todos st) (KInt i) = true ->
   (String.length (PyStr.strip (tc_text c)) < MIN_TEXT_LENGTH)%nat ->
   update_todo i c st = (Unhandled ValidationError, st)) /\
  (PyDict.contains (todos st) (KInt i) = true ->
   (MIN_TEXT_LENGTH <= String.length (PyStr.strip (tc_text c)))%nat ->
   exists st',
     let t := mkTodo (PyStr.strip (tc_text c)) (tc_done c) i in
     update_todo i c st = (Returned t, st') /\
     PyDict.keys (todos st') = PyDict.keys (todos st) /\
     get_todo i st' = (Returned t, st') /\
     (forall j, j <> i -> fst (get_todo j st') = fst (get_todo j st)) /\
     disk st' = Document (VList (map Todo_model_dump (PyDict.values (todos st'))))) /\
  fst (update_todo i c st) <> Unhandled ValueError.
Proof.
  rewrite update_todo_run. unfold PyDict.contains, Todo_new.
  rewrite text_field_str.
  destruct (PyDict.get (todos st) (KInt i)) as [v|] eqn:G.
  - split; [discriminate|].
    destruct (Nat.ltb_spec (String.length (PyStr.strip (tc_text c))) MIN_TEXT_LENGTH)
      as [L|L].
    + split; [reflexivity|]. split; [intros _ L'; lia|discriminate].
    + split; [intros _ L'; lia|]. split; [|discriminate].
      intros _ _. eexists. cbv zeta. split; [reflexivity|].
      cbn [todos disk committed].
      split; [apply PyDictFacts.keys_setitem_old; congruence|].
      split.
      { rewrite get_todo_run. cbn [todos committed].
        now rewrite PyDictFacts.get_setitem, PyDictFacts.key_eqb_refl. }
      split; [|reflexivity].
      intros j Hj. rewrite !get_todo_run. cbn [todos committed].
      rewrite PyDictFacts.get_setitem.
      assert (E : PyDict.key_eqb (KInt j) (KInt i) = false)
        by (apply PyDictFacts.key_eqb_neq; congruence).
      rewrite E. now destruct (PyDict.get (todos st) (KInt j)).
  - split; [reflexivity|]. split; [discriminate|]. split; discriminate.
Qed.


Lemma created_ids_cons (r : request) (o : outcome reply)
  (os : list (request * outcome reply)) :
  created_ids ((r, o) :: os) = created_ids [(r, o)] ++ created_ids os.
Proof.
  simpl. destruct r; try reflexivity. destruct o as [[ | |]| |]; reflexivity.
Qed.

Lemma serve_numbers (rs : list (request * write_outcome)) :
  forall (k : nat) (st st' : state) (log : list (request * outcome reply)),
    PyDict.keys (todos st) = map KInt (one_to k) ->
    serve rs st = (log, st') ->
    exists n : nat,
      PyDict.keys (todos st') = map KInt (one_to (k + n)) /\
      StronglySorted Z.lt (created_ids log) /\
      Forall (fun z => Z.of_nat k < z <= Z.of_nat (k + n)) (created_ids log) /\
      (Forall (fun r => snd r = Written) rs ->
       created_ids log = map Z.of_nat (seq (S k) n)).
Proof.
  induction rs as [|[r io] rs IH]; intros k st st' log Hk H; cbn [serve] in H.
  - injection H as <- <-. exists 0%nat. rewrite Nat.add_0_r.
    repeat split; try constructor. exact Hk.
  - destruct (handle io r st) as [o s1] eqn:Hh.
    destruct (serve rs s1) as [os s2] eqn:Hs. injection H as <- <-.
    rewrite created_ids_cons.
    destruct (handle_effect io r st)
      as [[E1 E2]|[(c & t & _ & Sv & E1 & E2)|(i & c & t & _ & _ & U & E1 & E2)]];
      rewrite Hh in E1, E2; cbn [fst snd] in E1, E2; rewrite E2.
    + subst s1. destruct (IH k st s2 os Hk Hs) as (n & I1 & I2 & I3 & I4).
      exists n. repeat split; try assumption.
      intro W. apply I4. now inversion W.
    + destruct (save_ok _ _ _ _ Sv) as (_ & _ & _ & Hn & _).
      rewrite (next_id_one_to st k Hk) in Hn.
      assert (Hid : Z.of_nat (S k) = id t) by congruence.
      assert (K1 : PyDict.keys (todos s1) = map KInt (one_to (S k))).
      { rewrite E1. destruct (todos_stored io st (todos st ++ [(KInt (id t), t)]))
          as (-> & _). unfold PyDict.keys in *.
        rewrite one_to_snoc, !map_app, Hk. cbn [map fst]. now rewrite Hid. }
      destruct (IH (S k) s1 s2 os K1 Hs) as (n & I1 & I2 & I3 & I4).
      exists (S n). rewrite <- Nat.add_succ_comm.
      split; [exact I1|].
      assert (I3' : Forall (fun z => Z.of_nat k < z <= Z.of_nat (S k + n))
                      (created_ids os)).
      { eapply Forall_impl; [|exact I3]. cbn beta. intros; lia. }
      destruct io; cbn [app].
      * split.
        { constructor; [exact I2|]. eapply Forall_impl; [|exact I3].
          cbn beta. intros; lia. }
        split; [constructor; [lia|exact I3']|].
        intro W. cbn [seq map]. rewrite <- Hid. f_equal. apply I4.
        now inversion W.
      * split; [exact I2|]. split; [exact I3'|].
        intro W. inversion W as [|? ? Hw _]. discriminate.
      * split; [exact I2|]. split; [exact I3'|].
        intro W. inversion W as [|? ? Hw _]. discriminate.
    + assert (K1 : PyDict.keys (todos s1) = map KInt (one_to k)).
      { rewrite E1.
        destruct (todos_stored io st (PyDict.setitem (todos st) (KInt (id t)) t))
          as (-> & _).
        rewrite update_run in U.
        destruct (PyDict.contains (todos st) (KInt (id t))) eqn:Ct; [|discriminate].
        rewrite PyDictFacts.keys_setitem_old; [exact Hk|now apply contains_get]. }
      destruct (IH k s1 s2 os K1 Hs) as (n & I1 & I2 & I3 & I4).
      exists n. repeat split; try assumption.
      intro W. apply I4. now inversion W.
Qed.

(** X13.  Through the handlers a record is never removed and an id is
    never assigned twice, whatever [PUT], [DELETE] and other requests
    come in between and however the writes end.  For every sequence of
    requests served by a store that started with an empty mapping, the
    keys of the mapping afterwards are 1, ..., n for some n; the ids of
    the records that the [POST] requests returned are strictly
    increasing and lie between 1 and n; and when every write succeeded
    they are exactly 1, ..., n, in that order. *)
Theorem api_ids_are_consecutive
  (rs : list (request * write_outcome)) (st0 st : state)
  (log : list (request * outcome reply)) :
  todos st0 = [] ->
  serve rs st0 = (log, st) ->
  exists n : nat,
    PyDict.keys (todos st) = map KInt (one_to n) /\
    StronglySorted Z.lt (created_ids log) /\
    Forall (fun z => 1 <= z <= Z.of_nat n) (created_ids log) /\
    (Forall (fun r => snd r = Written) rs -> created_ids log = one_to n).
Proof.
  intros E H.
  destruct (serve_numbers rs 0 st0 st log) as (n & I1 & I2 & I3 & I4);
    [now rewrite E|exact H|].
  exists n. cbn [Nat.add] in I1, I3. split; [exact I1|]. split; [exact I2|].
  split; [|exact I4].
  eapply Forall_impl; [|exact I3]. cbn beta. intros; lia.
Qed.

Lemma serve_cons (r : request) (io : write_outcome)
  (rs : list (request * write_outcome)) (st : state) :
  snd (serve ((r, io) :: rs) st) = snd (serve rs (snd (handle io r st))).
Proof.
  cbn [serve]. destruct (handle io r st) as [o s1]. cbn [snd].
  now destruct (serve rs s1).
Qed.

Lemma mutate_save_ok (c : TodoCreate) (st st' : state) (t : Todo) :
  save c st = (Ok t, st') -> mutate (Save c) st = (Ok tt, st').
Proof. intro H. cbn [mutate]. unfold bind, ret. now rewrite H. Qed.

Lemma mutate_update_ok (t t' : Todo) (st st' : state) :
  update t st = (Ok t', st') -> mutate (Update t) st = (Ok tt, st').
Proof. intro H. cbn [mutate]. unfold bind, ret. now rewrite H. Qed.

(** A request keeps the mapping well formed, and keeps the file in step
    when its write succeeds. *)
Lemma handle_keeps (io : write_outcome) (r : request) (st : state) :
  NoDup (PyDict.keys (todos st)) -> own_ids (todos st) -> valid_texts (todos st) ->
  filename (snd (handle io r st)) = filename st /\
  NoDup (PyDict.keys (todos (snd (handle io r st)))) /\
  own_ids (todos (snd (handle io r st))) /\
  valid_texts (todos (snd (handle io r st))) /\
  (io = Written -> in_sync st -> in_sync (snd (handle io r st))).
Proof.
  intros N O V.
  destruct (handle_effect io r st)
    as [[-> _]|[(c & t & _ & Sv & -> & _)|(i & c & t & _ & Vt & U & -> & _)]].
  - now repeat split.
  - pose proof (mutate_keeps_valid (Save c) st ltac:(discriminate) N O V) as X.
    rewrite (mutate_save_ok _ _ _ _ Sv) in X. cbn [snd todos committed] in X.
    destruct (todos_stored io st (todos st ++ [(KInt (id t), t)])) as (-> & -> & _).
    destruct X as (? & ? & ?). repeat split; try assumption.
    intros -> _. now right.
  - assert (Hm : forall t', Update t = Update t' -> valid_text (text t') = true)
      by (intros t' Et; now injection Et as <-).
    pose proof (mutate_keeps_valid (Update t) st Hm N O V) as X.
    rewrite (mutate_update_ok _ _ _ _ U) in X. cbn [snd todos committed] in X.
    destruct (todos_stored io st (PyDict.setitem (todos st) (KInt (id t)) t))
      as (-> & -> & _).
    destruct X as (? & ? & ?). repeat split; try assumption.
    intros -> _. now right.
Qed.

Section ReopenAfterCalls.

Variable lax_int : value -> option Z.
Variable lax_bool : value -> option bool.

(** X10.  What the store has written can be read back.  Start with an
    empty mapping and no file, and make any sequence of [save], [update]
    and [delete] calls in which every record given to [update] has a text
    that the validator leaves as it is.  If every write of the sequence
    succeeded, a store constructed on the file as it stands holds the
    same mapping, entry by entry.  And however the earlier writes ended,
    after one further mutating call that returns, a store constructed on
    the file holds the same mapping again. *)
Theorem store_reopens_after_mutations
  (calls : list (mutation * write_outcome)) (st0 : state) :
  todos st0 = [] ->
  disk st0 = Absent ->
  Forall (fun c => forall t, fst c = Update t -> valid_text (text t) = true)
    calls ->
  (Forall (fun c => snd c = Written) calls ->
   exists st2,
     TodoDao_init lax_int lax_bool (filename st0) (disk (run_io calls st0))
       = Ok st2 /\
     todos st2 = todos (run_io calls st0)) /\
  (forall m st',
     (forall t, m = Update t -> valid_text (text t) = true) ->
     mutate_io Written m (run_io calls st0) = (Ok tt, st') ->
     exists st2,
       TodoDao_init lax_int lax_bool (filename st0) (disk st') = Ok st2 /\
       todos st2 = todos st').
Proof.
  intros E1 E2 F.
  destruct (run_io_keeps calls st0 F) as (Hf & N & O & V & Sy);
    [rewrite E1; constructor..|].
  split.
  - intro W. rewrite <- Hf.
    apply (init_of_synced lax_int lax_bool); try assumption.
    apply Sy; [exact W|]. left. now split.
  - intros m st' Hm H.
    destruct (mutate_io_keeps Written m (run_io calls st0) Hm N O V)
      as (Hf' & N' & O' & V' & _ & D).
    rewrite H in Hf', N', O', V', D. cbn [fst snd] in *.
    rewrite <- Hf, <- Hf'.
    apply (init_of_synced lax_int lax_bool); try assumption.
    right. now apply D.
Qed.

(** X14.  The handlers keep the mapping fit for the file.  For every
    sequence of requests served by a store that started with an empty
    mapping and no file, however the writes end, the keys are distinct
    and every stored record has a text that the validator leaves as it is
    and sits under its own id; and if every write succeeded, a store
    constructed on the file as it stands holds the same mapping, entry by
    entry. *)
Theorem api_store_reopens (rs : list (request * write_outcome)) (st0 : state) :
  todos st0 = [] ->
  disk st0 = Absent ->
  let st := snd (serve rs st0) in
  NoDup (PyDict.keys (todos st)) /\
  valid_texts (todos st) /\ own_ids (todos st) /\
  (Forall (fun r => snd r = Written) rs ->
   exists st2,
     TodoDao_init lax_int lax_bool (filename st0) (disk st) = Ok st2 /\
     todos st2 = todos st).
Proof.
  intros E1 E2.
  assert (G : forall rs st,
    NoDup (PyDict.keys (todos st)) -> own_ids (todos st) ->
    valid_texts (todos st) ->
    filename (snd (serve rs st)) = filename st /\
    NoDup (PyDict.keys (todos (snd (serve rs st)))) /\
    own_ids (todos (snd (serve rs st))) /\
    valid_texts (todos (snd (serve rs st))) /\
    (Forall (fun r => snd r = Written) rs -> in_sync st ->
     in_sync (snd (serve rs st)))).
  { clear. induction rs as [|[r io] rs IH]; intros st N O V.
    - now repeat split.
    - rewrite serve_cons.
      destruct (handle_keeps io r st N O V) as (Hf & N' & O' & V' & Sy).
      destruct (IH _ N' O' V') as (Hf' & N2 & O2 & V2 & Sy').
      split; [congruence|]. repeat split; try assumption.
      intros W D. inversion W as [|? ? Hw W']; subst. cbn [snd] in Hw.
      apply Sy'; [exact W'|]. now apply Sy. }
  destruct (G rs st0) as (Hf & N & O & V & Sy); [rewrite E1; constructor..|].
  cbv zeta. split; [exact N|]. split; [exact V|]. split; [exact O|].
  intro W. rewrite <- Hf.
  apply (init_of_synced lax_int lax_bool); try assumption.
  apply Sy; [exact W|]. left. now split.
Qed.

(** X15.  Validation normalises once: a record that [Todo.model_validate]
    returned for some JSON object is returned unchanged for its own
    [model_dump]; the dump carries the id as a JSON integer, and two
    records with the same dump are equal. *)
Theorem model_dump_validate_round_trip (v : value) (t : Todo) :
  Todo_model_validate lax_int lax_bool v = Ok t ->
  Todo_model_validate lax_int lax_bool (Todo_model_dump t) = Ok t /\
  py_getitem (Todo_model_dump t) "id" = Ok (VInt (id t)) /\
  (forall t', Todo_model_dump t' = Todo_model_dump t -> t' = t).
Proof.
  intro H. split.
  - apply validate_dump. exact (validate_ok_valid_text _ _ _ _ H).
  - split; [reflexivity|].
    intros [s' b' z'] E. destruct t as [s b z]. unfold Todo_model_dump in E.
    simpl in E. now injection E as -> -> ->.
Qed.


End ReopenAfterCalls.

(** ** The further theorems on sample inputs *)

Lemma validate_text_returns_trimmed_witness :
  validate_text (VStr "  buy milk ") = Ok "buy milk" /\
  validate_text (VStr "buy milk") = Ok "buy milk".
Proof.
  split; [reflexivity|].
  destruct (validate_text_returns_trimmed (VStr "  buy milk ") "buy milk" eq_refl)
    as (_ & _ & _ & _ & _ & _ & _ & _ & _ & _ & H).
  exact H.
Defined.

Lemma blank_text_is_rejected_witness :
  all_space "     " = true /\
  TodoCreate_new strict_bool (VStr "     ") None = Raise ValidationError.
Proof.
  split; [reflexivity|].
  exact (proj1 (proj2 (blank_text_is_rejected strict_bool "     " 0 None false
                         eq_refl))).
Defined.

Lemma update_replaces_in_place_witness :
  PyDict.contains (todos sample_two) (KInt 1) = true /\
  exists st',
    update (mkTodo "First" true 1) sample_two = (Ok (mkTodo "First" true 1), st') /\
    PyDict.keys (todos st') = [KInt 1; KInt 2].
Proof.
  split; [reflexivity|].
  destruct (update_replaces_in_place sample_two (mkTodo "First" true 1) eq_refl)
    as (st' & U & K & _).
  exists st'. split; [exact U|exact K].
Defined.

Lemma get_agrees_with_get_all_witness :
  NoDup (PyDict.keys (todos sample_two)) /\ own_ids (todos sample_two) /\
  exists l o,
    get_all sample_two = (Ok l, sample_two) /\
    get 2 sample_two = (Ok o, sample_two) /\
    (o = Some (mkTodo "Second" false 2) <->
     In (mkTodo "Second" false 2) l /\ 2 = 2).
Proof.
  assert (N : NoDup (PyDict.keys (todos sample_two))).
  { repeat constructor; simpl; intuition discriminate. }
  assert (O : own_ids (todos sample_two)) by (repeat constructor).
  split; [exact N|]. split; [exact O|].
  exact (get_agrees_with_get_all sample_two 2 (mkTodo "Second" false 2) N O).
Defined.

Lemma mutations_keep_ids_distinct_witness :
  NoDup (PyDict.keys (todos sample_empty)) /\
  NoDup (PyDict.keys (todos (run_mutations
           [Save sample_first; Delete 5; Save sample_second; Delete 2;
            Update (mkTodo "x" true 1); Save sample_second] sample_empty))).
Proof.
  split; [constructor|].
  exact (proj1 (mutations_keep_ids_distinct
                  [Save sample_first; Delete 5; Save sample_second; Delete 2;
                   Update (mkTodo "x" true 1); Save sample_second] sample_empty
                  (NoDup_nil _) (Forall_nil _) (Forall_nil _))).
Defined.

Lemma save_raises_on_string_key_witness :
  In (KStr "7") (PyDict.keys (todos sample_foreign)) /\
  save sample_first sample_foreign = (Raise TypeError, sample_foreign).
Proof.
  split; [now left|].
  apply (save_raises_on_string_key Written sample_first sample_foreign "7").
  now left.
Defined.

Lemma init_returns_validated_records_witness :
  exists st,
    TodoDao_init strict_int strict_bool "todo_data.json"
      (Document (VList [sample_record 1 "  old "; sample_record 1 "new"])) = Ok st /\
    valid_texts (todos st) /\ (List.length (todos st) <= 2)%nat.
Proof.
  destruct (TodoDao_init strict_int strict_bool "todo_data.json"
              (Document (VList [sample_record 1 "  old "; sample_record 1 "new"])))
    as [st|e] eqn:I; [|vm_compute in I; discriminate].
  exists st. split; [reflexivity|].
  destruct (init_returns_validated_records _ _ _ _ _ I) as (_ & _ & _ & V & L & _).
  split; [exact V|exact (L _ eq_refl)].
Defined.

Lemma init_on_non_array_document_witness :
  TodoDao_init strict_int strict_bool "todo_data.json" (Document (VDict []))
    = Ok (mkState "todo_data.json" [] (Document (VDict [])) []) /\
  TodoDao_init strict_int strict_bool "todo_data.json"
    (Document (sample_record 1 "alone")) = Raise TypeError.
Proof.
  split.
  - apply (init_on_non_array_document strict_int strict_bool "todo_data.json"
             (VDict [])). discriminate.
  - apply (init_on_non_array_document strict_int strict_bool "todo_data.json"
             (sample_record 1 "alone")). discriminate.
Defined.

Lemma unvalidated_update_blocks_reopening_witness :
  PyDict.contains (todos sample_two) (KInt 1) = true /\
  exists st',
    update (mkTodo "x" false 1) sample_two = (Ok (mkTodo "x" false 1), st') /\
    exists e, TodoDao_init strict_int strict_bool "todo_data.json" (disk st')
              = Raise e.
Proof.
  split; [reflexivity|].
  apply (unvalidated_update_blocks_reopening strict_int strict_bool
           "todo_data.json" sample_two (mkTodo "x" false 1));
    [reflexivity|vm_compute; lia].
Defined.

Lemma store_reopens_after_mutations_witness :
  (exists st2,
     TodoDao_init strict_int strict_bool "todo_data.json"
       (disk (run_io [(Save sample_first, Written); (Save sample_second, Written);
                      (Delete 1, Written);
                      (Update (mkTodo "Second" true 2), Written)] sample_empty))
       = Ok st2 /\
     todos st2 = [(KInt 2, mkTodo "Second" true 2)]) /\
  (exists st' st2,
     mutate_io Written (Delete 1)
       (run_io [(Save sample_first, Written); (Save sample_second, WriteFails)]
          sample_empty) = (Ok tt, st') /\
     TodoDao_init strict_int strict_bool "todo_data.json" (disk st') = Ok st2 /\
     todos st2 = [(KInt 2, mkTodo "Second" false 2)]).
Proof.
  split.
  - apply (store_reopens_after_mutations strict_int strict_bool
             [(Save sample_first, Written); (Save sample_second, Written);
              (Delete 1, Written); (Update (mkTodo "Second" true 2), Written)]
             sample_empty eq_refl eq_refl);
      repeat constructor; try discriminate.
    intros t E. now injection E as <-.
  - eexists.
    destruct (proj2 (store_reopens_after_mutations strict_int strict_bool
                [(Save sample_first, Written); (Save sample_second, WriteFails)]
                sample_empty eq_refl eq_refl
                ltac:(repeat constructor; discriminate))
                (Delete 1) _ ltac:(discriminate) eq_refl) as (st2 & I & T).
    exists st2. split; [reflexivity|]. split; [exact I|exact T].
Defined.

Lemma update_todo_contract_witness :
  update_todo 9 sample_first sample_two
    = (HTTPException 404 "Todo not found", sample_two) /\
  update_todo 1 (mkTodoCreate " x " false) sample_two
    = (Unhandled ValidationError, sample_two).
Proof.
  split.
  - now apply (update_todo_contract 9 sample_first sample_two).
  - apply (update_todo_contract 1 (mkTodoCreate " x " false) sample_two);
      [reflexivity|vm_compute; lia].
Defined.


Lemma api_ids_are_consecutive_witness :
  todos sample_empty = [] /\
  exists log st n,
    serve sample_session sample_empty = (log, st) /\
    created_ids log = [1; 2; 4] /\
    PyDict.keys (todos st) = map KInt (one_to n) /\
    StronglySorted Z.lt (created_ids log).
Proof.
  split; [reflexivity|].
  destruct (serve sample_session sample_empty) as [log st] eqn:S.
  destruct (api_ids_are_consecutive sample_session sample_empty st log
              eq_refl S) as (n & K & I & _).
  exists log, st, n. split; [reflexivity|]. split; [|split; [exact K|exact I]].
  vm_compute in S. now injection S as <- _.
Defined.

Lemma api_store_reopens_witness :
  valid_texts (todos (snd (serve sample_session sample_empty))) /\
  exists st2,
    TodoDao_init strict_int strict_bool "todo_data.json"
      (disk (snd (serve [(POST_todos sample_first, Written);
                         (POST_todos sample_second, Written);
                         (PUT_todo 1 (mkTodoCreate " Done " true), Written);
                         (DELETE_todo 2, Written)] sample_empty))) = Ok st2 /\
    todos st2 = [(KInt 1, mkTodo "Done" true 1); (KInt 2, mkTodo "Second" false 2)].
Proof.
  split.
  - exact (proj1 (proj2 (api_store_reopens strict_int strict_bool sample_session
                           sample_empty eq_refl eq_refl))).
  - apply (api_store_reopens strict_int strict_bool
             [(POST_todos sample_first, Written);
              (POST_todos sample_second, Written);
              (PUT_todo 1 (mkTodoCreate " Done " true), Written);
              (DELETE_todo 2, Written)] sample_empty eq_refl eq_refl).
    repeat constructor.
Defined.

Lemma model_dump_validate_round_trip_witness :
  Todo_model_validate strict_int strict_bool (sample_record 4 "  tidy up  ")
    = Ok (mkTodo "tidy up" false 4) /\
  Todo_model_validate strict_int strict_bool
    (Todo_model_dump (mkTodo "tidy up" false 4)) = Ok (mkTodo "tidy up" false 4).
Proof.
  split; [reflexivity|].
  exact (proj1 (model_dump_validate_round_trip strict_int strict_bool
                  (sample_record 4 "  tidy up  ") (mkTodo "tidy up" false 4)
                  eq_refl)).
Defined.

